(** * OpenAtlas API v03: the entity search engine

    A shallow embedding of [openatlas/api/v03/resources/search.py] and the
    properties of its four layers: value extraction, criterion resolution,
    operator evaluation and the top-level filter.

    Python objects are dynamically typed; the values that reach the search
    code (JSON scalars and lists, entity attributes, dates) are embedded as
    the inductive type [value].  Exceptions are embedded as the [Raise] arm
    of [result]. *)

From Stdlib Require Import ZArith QArith Qround String Ascii Bool List Lia.
From stdpp Require Import base option list gmap strings relations.

Set Warnings "-register-all".
Local Open Scope string_scope.
Local Open Scope list_scope.
Local Open Scope Z_scope.

(** ** Python values *)

(** A Python [float]: a finite value (a rational, every finite binary64 is
    one), an infinity, or NaN.  Rounding is not modelled: the search code
    only parses, tests for zero and compares floats. *)
Inductive pyfloat :=
  | FFin (q : Q)
  | FInf (negative : bool)
  | FNan.

(** A calendar date as [numpy.datetime64] with day resolution prints it.
    Its order is the lexicographic order on year, month, day. *)
Record date := Date { year : Z; month : Z; day : Z }.

Inductive value :=
  | VBool (b : bool)
  | VInt (z : Z)
  | VFloat (f : pyfloat)
  | VStr (s : string)
  | VDate (d : date)
  | VList (l : list value).

Inductive exn :=
  | WrongOperatorError
  | KeyError (key : value)
  | ValueError
  | TypeError
  | IndexError
  | RecursionError.

Inductive result (A : Type) :=
  | Ok (a : A)
  | Raise (e : exn).
Arguments Ok {A} a.
Arguments Raise {A} e.

Global Instance result_ret : MRet result := fun A a => Ok a.
Global Instance result_bind : MBind result := fun A B f m =>
  match m with
  | Ok a => f a
  | Raise e => Raise e
  end.

Definition is_ok {A} (m : result A) : bool :=
  match m with Ok _ => true | Raise _ => false end.

Definition returns_true (m : result bool) : bool :=
  match m with Ok b => b | Raise _ => false end.

(** ** Floats *)

Definition Qltb (a b : Q) : bool := negb (Qle_bool b a).

Definition float_eqb (a b : pyfloat) : bool :=
  match a, b with
  | FFin x, FFin y => Qeq_bool x y
  | FInf s, FInf t => Bool.eqb s t
  | _, _ => false
  end.

Definition float_ltb (a b : pyfloat) : bool :=
  match a, b with
  | FNan, _ | _, FNan => false
  | FFin x, FFin y => Qltb x y
  | FFin _, FInf neg => negb neg
  | FInf neg, FFin _ => neg
  | FInf s, FInf t => s && negb t
  end.

Definition float_leb (a b : pyfloat) : bool :=
  match a, b with
  | FNan, _ | _, FNan => false
  | FFin x, FFin y => Qle_bool x y
  | FFin _, FInf neg => negb neg
  | FInf neg, FFin _ => neg
  | FInf s, FInf t => s || negb t
  end.

Definition float_is_zero (a : pyfloat) : bool :=
  match a with
  | FFin x => Qeq_bool x 0
  | _ => false
  end.

(** ** Dates *)

Definition date_eqb (a b : date) : bool :=
  (year a =? year b) && (month a =? month b) && (day a =? day b).

Definition date_ltb (a b : date) : bool :=
  (year a <? year b)
  || ((year a =? year b)
      && ((month a <? month b)
          || ((month a =? month b) && (day a <? day b)))).

Definition date_leb (a b : date) : bool := date_ltb a b || date_eqb a b.

(** The date [numpy.datetime64] counts from. *)
Definition epoch : date := Date 1970 1 1.

(** ** Strings

    A [str] is embedded as the bytes of its UTF-8 encoding: equality,
    order and the substring test on two strings are then those of their
    code points. *)

(** [needle in haystack] on two [str]: is [needle] a prefix of some suffix. *)
Fixpoint str_in (needle haystack : string) : bool :=
  String.prefix needle haystack
  || match haystack with
     | EmptyString => false
     | String _ rest => str_in needle rest
     end.

(** [sep.join(parts)] *)
Fixpoint str_join (sep : string) (parts : list string) : string :=
  match parts with
  | [] => EmptyString
  | [p] => p
  | p :: rest => p +:+ sep +:+ str_join sep rest
  end.

(** The one-character strings a [str] yields when iterated. *)
Fixpoint str_chars (s : string) : list string :=
  match s with
  | EmptyString => []
  | String c s' => String c EmptyString :: str_chars s'
  end.

(** ** Truth value, equality and order of Python values *)

(** [bool(v)].  A [numpy.datetime64] holds a count of days since
    1970-01-01 and, like the integer it holds, is false at zero. *)
Definition truthy (v : value) : bool :=
  match v with
  | VBool b => b
  | VInt z => negb (z =? 0)
  | VFloat f => negb (float_is_zero f)
  | VStr s => negb (String.eqb s EmptyString)
  | VDate d => negb (date_eqb d epoch)
  | VList l => match l with [] => false | _ => true end
  end.

(** The numeric tower: [bool] and [int] compare with [float] by value. *)
Definition as_number (v : value) : option pyfloat :=
  match v with
  | VBool b => Some (FFin (inject_Z (if b then 1 else 0)))
  | VInt z => Some (FFin (inject_Z z))
  | VFloat f => Some f
  | _ => None
  end.

(** [a == b].  Never raises; values of unrelated types are unequal. *)
Fixpoint py_eqb (a b : value) : bool :=
  match a, b with
  | VStr s, VStr t => String.eqb s t
  | VDate d, VDate e => date_eqb d e
  | VList l, VList m =>
      (fix go (l : list value) (m : list value) : bool :=
         match l, m with
         | [], [] => true
         | x :: l', y :: m' => py_eqb x y && go l' m'
         | _, _ => false
         end) l m
  | _, _ =>
      match as_number a, as_number b with
      | Some x, Some y => float_eqb x y
      | _, _ => false
      end
  end.

(** Rich comparison [a < b] ([strict]) or [a <= b]: numbers with numbers,
    [str] with [str], dates with dates, lists with lists (decided at the
    first position where the elements differ, else by length); anything else
    is Python's "not supported between instances" error. *)
Fixpoint py_compare (strict : bool) (a b : value) : result bool :=
  match a, b with
  | VStr s, VStr t => Ok (if strict then String.ltb s t else String.leb s t)
  | VDate d, VDate e => Ok (if strict then date_ltb d e else date_leb d e)
  | VList l, VList m =>
      (fix go (l : list value) (m : list value) : result bool :=
         match l, m with
         | [], [] => Ok (negb strict)
         | [], _ :: _ => Ok true
         | _ :: _, [] => Ok false
         | x :: l', y :: m' =>
             if py_eqb x y then go l' m' else py_compare strict x y
         end) l m
  | _, _ =>
      match as_number a, as_number b with
      | Some x, Some y =>
          Ok (if strict then float_ltb x y else float_leb x y)
      | _, _ => Raise TypeError
      end
  end.

Definition py_lt : value -> value -> result bool := py_compare true.

Definition py_le : value -> value -> result bool := py_compare false.

Definition py_gt (a b : value) : result bool := py_lt b a.

Definition py_ge (a b : value) : result bool := py_le b a.

(** [iter(v)]: what a [for] loop over [v] visits. *)
Definition py_iter (v : value) : result (list value) :=
  match v with
  | VList l => Ok l
  | VStr s => Ok (VStr <$> str_chars s)
  | _ => Raise TypeError
  end.

(** [item in container] *)
Definition py_in (item container : value) : result bool :=
  match container with
  | VList l => Ok (existsb (py_eqb item) l)
  | VStr s =>
      match item with
      | VStr t => Ok (str_in t s)
      | _ => Raise TypeError
      end
  | _ => Raise TypeError
  end.

(** [any(f(x) for x in l)] and [all(f(x) for x in l)]: the generator is
    consumed from the left and abandoned at the first deciding element, so
    an exception raised by a later element is never seen. *)
Fixpoint py_any {A} (f : A -> result bool) (l : list A) : result bool :=
  match l with
  | [] => Ok false
  | x :: l' => b ← f x; if (b : bool) then Ok true else py_any f l'
  end.

Fixpoint py_all {A} (f : A -> result bool) (l : list A) : result bool :=
  match l with
  | [] => Ok true
  | x :: l' => b ← f x; if (b : bool) then py_all f l' else Ok false
  end.

(** [' '.join(v)]: every element has to be a [str]. *)
Definition py_join (sep : string) (v : value) : result string :=
  parts ← py_iter v;
  strs ← mapM (fun p => match p with
                        | VStr s => Ok s
                        | _ => Raise TypeError
                        end) parts;
  Ok (str_join sep strs).

(** [v[i]] for a literal index. *)
Definition py_index (v : value) (i : nat) : result value :=
  match v with
  | VList l =>
      match l !! i with
      | Some x => Ok x
      | None => Raise IndexError
      end
  | VStr s =>
      match str_chars s !! i with
      | Some c => Ok (VStr c)
      | None => Raise IndexError
      end
  | _ => Raise TypeError
  end.

(** [d[k]] on a [dict] with string keys. *)
Definition dict_get (d : gmap string value) (k : string) : result value :=
  match d !! k with
  | Some v => Ok v
  | None => Raise (KeyError (VStr k))
  end.

(** [[x for x in l if f(x)]]: every element is tested, in order. *)
Fixpoint filterM {A} (f : A -> result bool) (l : list A) : result (list A) :=
  match l with
  | [] => Ok []
  | x :: l' =>
      b ← f x;
      rest ← filterM f l';
      Ok (if (b : bool) then x :: rest else rest)
  end.

(** ** The operator evaluator: [search_entity] *)

Definition str_is (v : value) (s : string) : bool := py_eqb v (VStr s).

(** The two arms every operator block has: one [return] under
    [logical_operator == 'or'], one under ['and'], and otherwise control
    falls out of the block ([None]). *)
Definition by_logical_operator (logical_operator : value)
    (on_or on_and : result bool) : option (result bool) :=
  if str_is logical_operator "or" then Some on_or
  else if str_is logical_operator "and" then Some on_and
  else None.

(** A sequence of [if] blocks: the first one that returns decides. *)
Fixpoint first_return {A} (blocks : list (option A)) : option A :=
  match blocks with
  | [] => None
  | Some r :: _ => Some r
  | None :: rest => first_return rest
  end.

Definition py_not (m : result bool) : result bool := b ← m; Ok (negb b).

Definition search_entity (entity_values : value) (operator_ : value)
    (search_values : list value) (logical_operator : value)
    (is_comparable : bool) : result bool :=
  if negb (truthy entity_values)
     && (str_is operator_ "like" || is_comparable)
  then Ok false
  else
    let member := fun item => py_in item entity_values in
    let block (cond : bool) (on_or on_and : result bool) :=
      if cond then by_logical_operator logical_operator on_or on_and
      else None in
    default (Raise WrongOperatorError) (first_return [
      block (str_is operator_ "equal")
        (py_any member search_values)
        (py_all member search_values);
      block (str_is operator_ "notEqual")
        (py_not (py_any member search_values))
        (py_not (py_all member search_values));
      block (str_is operator_ "like")
        (py_any (fun item =>
                   vs ← py_iter entity_values;
                   py_any (fun value => py_in item value) vs)
                search_values)
        (py_all (fun item =>
                   joined ← py_join " " entity_values;
                   py_in item (VStr joined))
                search_values);
      block (str_is operator_ "greaterThan" && is_comparable)
        (py_any (fun item => py_lt item entity_values) search_values)
        (py_all (fun item => py_lt item entity_values) search_values);
      block (str_is operator_ "greaterThanEqual" && is_comparable)
        (py_any (fun item => py_le item entity_values) search_values)
        (py_all (fun item => py_le item entity_values) search_values);
      block (str_is operator_ "lesserThan" && is_comparable)
        (py_any (fun item => py_gt item entity_values) search_values)
        (py_all (fun item => py_gt item entity_values) search_values);
      block (str_is operator_ "lesserThanEqual" && is_comparable)
        (py_any (fun item => py_ge item entity_values) search_values)
        (py_all (fun item => py_ge item entity_values) search_values)
    ]).

(** ** Entities, type nodes, links and the collaborators *)

(** A type node as the search code uses it: [Type.id], [Type.name] and the
    ids of its direct sub types. *)
Record Type_ := {
  type_id : Z;
  type_name : string;
  type_subs : list Z
}.

Record Entity := {
  entity_id : Z;
  entity_name : string;
  entity_description : option string;
  entity_aliases : list (Z * string);
  entity_cidoc_class_code : string;
  entity_class_name : string;
  entity_types : list Type_;
  entity_begin_from : option date;
  entity_begin_to : option date;
  entity_end_from : option date;
  entity_end_to : option date
}.

(** A link as [search_for_value] reads it: [link_.description] ([None] or a
    string) and [link_.domain.id]. *)
Record Link := {
  link_description : option string;
  link_domain_id : Z
}.

(** What the module reaches outside itself: the request-wide type table
    [g.types], the two link queries of [util.py], Python's [float()] on a
    string ([None] where it raises [ValueError]) and Python's
    [str.lower()]. *)
Record Env := {
  g_types : gmap Z Type_;
  get_linked_entities_id_api : value -> list Z;
  get_links : value -> list Link;
  py_float : string -> option pyfloat;
  py_lower : string -> string
}.

(** Modelled from the spec: [Type.get_all_sub_ids] of [models/type.py], which
    is not among the sources; the type-hierarchy collaborator returns "one
    level of children; caller recurses". *)
Definition get_all_sub_ids (t : Type_) : list Z := type_subs t.

(** Modelled from the spec: [flatten_list_and_remove_duplicates] of
    [api/v03/resources/util.py], which is not among the sources; the result
    is "flattened + de-duplicated" with "no particular order requirement".
    Here the ids come out in the order of their last occurrence. *)
Definition flatten_list_and_remove_duplicates (ll : list (list Z)) : list Z :=
  remove_dups (concat ll).

(** Modelled from the spec: [check_if_date_search] of
    [api/v03/resources/search_validation.py], which is not among the
    sources; "is_date_comparable is true iff category is one of the four
    date fields". *)
Definition check_if_date_search (category : string) : bool :=
  bool_decide (category ∈ ["beginFrom"; "beginTo"; "endFrom"; "endTo"]).

(** Modelled from the spec: [check_if_date(str(field))] of
    [search_validation.py], which is not among the sources; the date field
    is "parsed to a comparable" and "an unparseable or absent date yields an
    empty list". *)
Definition check_if_date (field : option date) : value :=
  match field with
  | Some d => VDate d
  | None => VList []
  end.

(** ** The value extractor: [value_to_be_searched] *)

Definition value_to_be_searched (env : Env) (entity : Entity) (key : value)
    : value :=
  if existsb (str_is key) ["entityID"; "relationToID"; "valueTypeID"] then
    VList [VInt (entity_id entity)]
  else if str_is key "entityName" then
    VList [VStr (py_lower env (entity_name entity))]
  else if str_is key "entityDescription"
          && match entity_description entity with
             | Some d => truthy (VStr d)
             | None => false
             end then
    VList [VStr (py_lower env (default EmptyString (entity_description entity)))]
  else if str_is key "entityAliases" then
    VList ((fun a => VStr (py_lower env a.2)) <$> entity_aliases entity)
  else if str_is key "entityCidocClass" then
    VList [VStr (py_lower env (entity_cidoc_class_code entity))]
  else if str_is key "entitySystemClass" then
    VList [VStr (py_lower env (entity_class_name entity))]
  else if str_is key "typeName" then
    VList ((fun node => VStr (py_lower env (type_name node))) <$> entity_types entity)
  else if existsb (str_is key) ["typeID"; "typeIDWithSubs"] then
    VList ((fun node => VInt (type_id node)) <$> entity_types entity)
  else if str_is key "beginFrom" then check_if_date (entity_begin_from entity)
  else if str_is key "beginTo" then check_if_date (entity_begin_to entity)
  else if str_is key "endFrom" then check_if_date (entity_end_from entity)
  else if str_is key "endTo" then check_if_date (entity_end_to entity)
  else VList [].

Section Resolver.

Context (env : Env).

(** ** The criterion resolver *)

(** [g.types[id_]]: the table is keyed by [int]; a [bool] or an integral
    [float] hashes and compares as that integer, a list is unhashable. *)
Definition dict_key (id_ : value) : result (option Z) :=
  match id_ with
  | VBool b => Ok (Some (if b then 1 else 0))
  | VInt z => Ok (Some z)
  | VFloat (FFin q) =>
      Ok (if Qeq_bool q (inject_Z (Qfloor q)) then Some (Qfloor q) else None)
  | VList _ => Raise TypeError
  | _ => Ok None
  end.

Definition g_types_get (id_ : value) : result Type_ :=
  k ← dict_key id_;
  match k ≫= fun z => g_types env !! z with
  | Some t => Ok t
  | None => Raise (KeyError id_)
  end.

(** [get_sub_ids] appends to the accumulator [subs] it is handed and
    returns it.  [depth] bounds the nesting of calls, as the interpreter's
    recursion limit does. *)
Fixpoint get_sub_ids (depth : nat) (id_ : value) (subs : list Z)
    : result (list Z) :=
  match depth with
  | O => Raise RecursionError
  | S depth' =>
      t ← g_types_get id_;
      let new_subs := get_all_sub_ids t in
      foldl (fun acc sub => subs' ← acc; get_sub_ids depth' (VInt sub) subs')
            (Ok (subs ++ new_subs)) new_subs
  end.

(** The loop of [get_sub_ids] over the sub types just found, one level
    down. *)
Definition visit_subs (depth : nat) (acc : result (list Z)) (subs : list Z)
    : result (list Z) :=
  foldl (fun acc sub => subs' ← acc; get_sub_ids depth (VInt sub) subs')
        acc subs.

(** The body of the loop of [search_for_value]:
    [link_.description and search_entity(...)] for one link.  Keyword
    arguments are evaluated left to right, and in the conditional expression
    of [entity_values] the test on [parameter['operator']] comes before
    [float(link_.description)]. *)
Definition visit_link (parameter : gmap string value) (values : value)
    (acc : result (list Z)) (link_ : Link) : result (list Z) :=
  ids ← acc;
  match link_description link_ with
  | Some description =>
      if truthy (VStr description) then
        operator_ ← dict_get parameter "operator";
        let boxed := existsb (py_eqb operator_)
                       [VStr "equal"; VStr "notEqual"] in
        number ← match py_float env description with
                 | Some f => Ok f
                 | None => Raise ValueError
                 end;
        let entity_values :=
          if boxed then VList [VFloat number] else VFloat number in
        bound ← py_index values 1;
        logical_operator ← dict_get parameter "logicalOperator";
        matched ← search_entity entity_values operator_ [bound]
                    logical_operator true;
        Ok (if (matched : bool) then ids ++ [link_domain_id link_] else ids)
      else Ok ids
  | None => Ok ids
  end.

Definition search_for_value (values : value) (parameter : gmap string value)
    : result (list Z) :=
  link_type ← py_index values 0;
  foldl (visit_link parameter values) (Ok []) (get_links env link_type).

Definition lower_if_str (v : value) : value :=
  match v with
  | VStr s => VStr (py_lower env s)
  | _ => v
  end.

Definition get_search_values (depth : nat) (category : string)
    (parameter : gmap string value) : result (list value) :=
  raw ← dict_get parameter "values";
  items ← py_iter raw;
  let values := lower_if_str <$> items in
  values ← (if String.eqb category "typeIDWithSubs" then
              subs ← mapM (fun value => get_sub_ids depth value []) values;
              Ok (values ++ (VInt <$> flatten_list_and_remove_duplicates subs))
            else Ok values);
  if String.eqb category "relationToID" then
    Ok (VInt <$> flatten_list_and_remove_duplicates
                   (get_linked_entities_id_api env <$> values))
  else if String.eqb category "valueTypeID" then
    ids ← mapM (fun value => search_for_value value parameter) values;
    Ok (VInt <$> flatten_list_and_remove_duplicates ids)
  else Ok values.

(** [parameter.update({...})]: the keys of the new dict win. *)
Definition dict_update (parameter new : gmap string value)
    : gmap string value := new ∪ parameter.

(** One turn of the inner loop of [get_search_parameter]; the entries of the
    dict literal are evaluated top to bottom. *)
Definition resolve (depth : nat) (category : string)
    (i : gmap string value) : result (gmap string value) :=
  search_values ← get_search_values depth category i;
  let logical_operator := default (VStr "or") (i !! "logicalOperator") in
  operator_ ← (if String.eqb category "valueTypeID" then Ok (VStr "equal")
               else dict_get i "operator");
  Ok (list_to_map [
        ("search_values", VList search_values);
        ("logical_operator", logical_operator);
        ("operator", operator_);
        ("category", VStr category);
        ("is_date", VBool (check_if_date_search category))]).

(** One turn of the inner loop of [get_search_parameter], on the
    [parameter] accumulated so far. *)
Definition update_parameter (depth : nat) (acc : result (gmap string value))
    (category : string) (i : gmap string value)
    : result (gmap string value) :=
  parameter ← acc;
  new ← resolve depth category i;
  Ok (dict_update parameter new).

(** [for i in values], the raw criteria given for one category. *)
Definition inner_loop (depth : nat) (category : string)
    (acc : result (gmap string value)) (criteria : list (gmap string value))
    : result (gmap string value) :=
  foldl (fun acc i => update_parameter depth acc category i) acc criteria.

(** [for category, values in parser.items()].  A parser dict maps a
    category to the list of raw criteria given for it; its items are
    visited in insertion order. *)
Definition outer_loop (depth : nat) (acc : result (gmap string value))
    (parser : list (string * list (gmap string value)))
    : result (gmap string value) :=
  foldl (fun acc item => inner_loop depth item.1 acc item.2) acc parser.

Definition get_search_parameter (depth : nat)
    (parser : list (string * list (gmap string value)))
    : result (gmap string value) :=
  outer_loop depth (Ok ∅) parser.

(** ** The orchestrator *)

(** The keyword arguments are evaluated in the order they are written;
    [parameter['search_values']] is the list [get_search_parameter] stored,
    unpacked here for [search_entity]. *)
Definition search_result (entity : Entity) (parameter : gmap string value)
    : result bool :=
  category ← dict_get parameter "category";
  let entity_values := value_to_be_searched env entity category in
  operator_ ← dict_get parameter "operator";
  search_values ← dict_get parameter "search_values";
  search_values ← py_iter search_values;
  logical_operator ← dict_get parameter "logical_operator";
  is_date ← dict_get parameter "is_date";
  search_entity entity_values operator_ search_values logical_operator
    (truthy is_date).

Definition iterate_through_entities (entity : Entity)
    (parameter : list (gmap string value)) : result bool :=
  matching ← filterM (search_result entity) parameter;
  Ok (match matching with [] => false | _ :: _ => true end).

Definition search (depth : nat) (entities : list Entity)
    (parser : list (list (string * list (gmap string value))))
    : result (list Entity) :=
  parameter ← mapM (get_search_parameter depth) parser;
  filterM (fun e => iterate_through_entities e parameter) entities.

End Resolver.

(** * Vocabulary of the properties *)

(** The operator names [search_entity] has a block for, and those among
    them that also ask for [is_comparable]. *)
Definition known_operators : list string :=
  ["equal"; "notEqual"; "like"; "greaterThan"; "greaterThanEqual";
   "lesserThan"; "lesserThanEqual"].

Definition ordering_operators : list string :=
  ["greaterThan"; "greaterThanEqual"; "lesserThan"; "lesserThanEqual"].

(** [s] occurs in [t]: the specification of Python's [s in t] on strings. *)
Definition substring_of (s t : string) : Prop :=
  ∃ pre post, t = pre +:+ s +:+ post.

(** The entities [search] keeps, given the resolved criteria. *)
Definition matches_any (env : Env) (ps : list (gmap string value))
    (entity : Entity) : bool :=
  existsb (fun p => returns_true (search_result env entity p)) ps.

(** The keys every resolved criterion carries. *)
Definition parameter_keys : list string :=
  ["search_values"; "logical_operator"; "operator"; "category"; "is_date"].

(** A parameter dict under construction holds no other keys. *)
Definition well_keyed (acc : result (gmap string value)) : Prop :=
  ∀ p, acc = Ok p → ∀ k, is_Some (p !! k) → k ∈ parameter_keys.

(** The test [search_for_value] applies to one link once the keys
    ['operator'] and ['logicalOperator'] of the raw criterion are found:
    a link without description, or with an empty one, is passed over; any
    other description goes through [float()]. *)
Definition link_value_matches (env : Env) (op lo bound : value) (link_ : Link)
    : result bool :=
  match link_description link_ with
  | Some description =>
      if truthy (VStr description) then
        number ← match py_float env description with
                 | Some f => Ok f
                 | None => Raise ValueError
                 end;
        search_entity
          (if existsb (py_eqb op) [VStr "equal"; VStr "notEqual"]
           then VList [VFloat number] else VFloat number)
          op [bound] lo true
      else Ok false
  | None => Ok false
  end.

(** [y] is a direct sub type of [x] in the type table. *)
Definition sub_type (types : gmap Z Type_) (x y : Z) : Prop :=
  ∃ t, types !! x = Some t ∧ y ∈ get_all_sub_ids t.

(** [y] is below [x]: reached by one or more steps to a sub type. *)
Definition descendant (types : gmap Z Type_) : Z → Z → Prop :=
  tc (sub_type types).

(** * Example data *)

(** [str.lower()] on strings of ASCII characters: the letters A to Z are
    moved to a to z.  It stands for [str.lower()] in the examples, whose
    strings are all ASCII. *)
Definition lower_ascii (c : ascii) : ascii :=
  let n := nat_of_ascii c in
  if (65 <=? n)%nat && (n <=? 90)%nat then ascii_of_nat (n + 32) else c.

Fixpoint ascii_lower (s : string) : string :=
  match s with
  | EmptyString => EmptyString
  | String c s' => String (lower_ascii c) (ascii_lower s')
  end.

(** The two dates of C2. *)
Definition date_1990_01_01 : date := Date 1990 1 1.

Definition date_2000_01_01 : date := Date 2000 1 1.

(** An entity with an id and a name and nothing else. *)
Definition plain_entity (id_ : Z) (name : string) : Entity :=
  {| entity_id := id_; entity_name := name; entity_description := None;
     entity_aliases := []; entity_cidoc_class_code := "E18";
     entity_class_name := "place"; entity_types := [];
     entity_begin_from := None; entity_begin_to := None;
     entity_end_from := None; entity_end_to := None |}.

Definition entity_A : Entity := plain_entity 1 "Alpha".

Definition entity_B : Entity := plain_entity 2 "Beta".

Definition entity_C : Entity := plain_entity 3 "Gamma".

(** An installation with no types and no links, where [float()] accepts
    nothing. *)
Definition empty_env : Env :=
  {| g_types := ∅;
     get_linked_entities_id_api := fun _ => [];
     get_links := fun _ => [];
     py_float := fun _ => None;
     py_lower := ascii_lower |}.

(** An installation where entity 1 is linked to entity 2. *)
Definition one_link_env : Env :=
  {| g_types := ∅;
     get_linked_entities_id_api :=
       fun v => match v with VInt 1 => [2] | _ => [] end;
     get_links := fun _ => [];
     py_float := fun _ => None;
     py_lower := ascii_lower |}.

(** Two parser dicts, one criterion each, and what they resolve to. *)
Definition by_name_alpha : list (string * list (gmap string value)) :=
  [("entityName",
    [ {[ "operator" := VStr "equal"; "values" := VList [VStr "Alpha"];
         "logicalOperator" := VStr "and" ]} ])].

Definition by_id_2 : list (string * list (gmap string value)) :=
  [("entityID",
    [ {[ "operator" := VStr "equal"; "values" := VList [VInt 2] ]} ])].

Definition resolved_by_name_alpha : gmap string value :=
  list_to_map [("search_values", VList [VStr "alpha"]);
               ("logical_operator", VStr "and");
               ("operator", VStr "equal");
               ("category", VStr "entityName");
               ("is_date", VBool false)].

Definition resolved_by_id_2 : gmap string value :=
  list_to_map [("search_values", VList [VInt 2]);
               ("logical_operator", VStr "or");
               ("operator", VStr "equal");
               ("category", VStr "entityID");
               ("is_date", VBool false)].

(** Raw criteria. *)
Definition equal_1 : gmap string value :=
  {[ "operator" := VStr "equal"; "values" := VList [VInt 1] ]}.

Definition equal_2 : gmap string value :=
  {[ "operator" := VStr "equal"; "values" := VList [VInt 2] ]}.

Definition not_related_to_1 : gmap string value :=
  {[ "operator" := VStr "notEqual"; "values" := VList [VInt 1] ]}.

(** Leading decimal digits of [s]: their value, their number, and the rest
    of the string. *)
Fixpoint read_digits (s : string) (acc : Z) (n : nat) : Z * nat * string :=
  match s with
  | String c s' =>
      match Ascii.is_nat c with
      | Some d => read_digits s' (10 * acc + Z.of_nat d) (S n)
      | None => (acc, n, s)
      end
  | EmptyString => (acc, n, s)
  end.

(** [float()] on plain decimal numerals: an optional sign, digits, and
    optionally a point with further digits.  Anything else is rejected,
    as Python rejects ["abc"]. *)
Definition decimal_float (s : string) : option pyfloat :=
  let '(negative, body) :=
    match s with
    | String "-" r => (true, r)
    | String "+" r => (false, r)
    | _ => (false, s)
    end in
  let signed (q : Q) := FFin (if negative : bool then Qopp q else q) in
  let '(whole, n1, r1) := read_digits body 0 0 in
  match n1, r1 with
  | O, _ => None
  | _, EmptyString => Some (signed (inject_Z whole))
  | _, String "." r2 =>
      let '(frac, n2, r3) := read_digits r2 0 0 in
      match r3 with
      | EmptyString =>
          Some (signed (Qmake (whole * 10 ^ Z.of_nat n2 + frac)
                              (Z.to_pos (10 ^ Z.of_nat n2))))
      | _ => None
      end
  | _, _ => None
  end.

(** An installation where the value type 5 carries the given links. *)
Definition value_env (links : list Link) : Env :=
  {| g_types := ∅;
     get_linked_entities_id_api := fun _ => [];
     get_links := fun v => if py_eqb v (VInt 5) then links else [];
     py_float := decimal_float;
     py_lower := ascii_lower |}.

(** The value criterion of the specification, [(5, 40)] with
    [greaterThanEqual], with and without its combinator. *)
Definition at_least : gmap string value :=
  {[ "operator" := VStr "greaterThanEqual";
     "logicalOperator" := VStr "or";
     "values" := VList [VList [VInt 5; VInt 40]] ]}.

Definition at_least_no_combinator : gmap string value :=
  {[ "operator" := VStr "greaterThanEqual";
     "values" := VList [VList [VInt 5; VInt 40]] ]}.

(** Links of the value type: a numeral, no description, an empty one,
    another numeral; and a link whose description is not a numeral. *)
Definition measured_links : list Link :=
  [ {| link_description := Some "42.5"; link_domain_id := 7 |};
    {| link_description := None; link_domain_id := 8 |};
    {| link_description := Some EmptyString; link_domain_id := 9 |};
    {| link_description := Some "39"; link_domain_id := 10 |} ].

Definition mislabelled_links : list Link :=
  [ {| link_description := Some "abc"; link_domain_id := 7 |} ].

Definition node (id_ : Z) (subs : list Z) : Type_ :=
  {| type_id := id_; type_name := "type"; type_subs := subs |}.

(** The type tree of the specification: root 1 with sub types 2 and 3;
    type 2 has sub type 4. *)
Definition tree_env : Env :=
  {| g_types := list_to_map [(1, node 1 [2; 3]); (2, node 2 [4]);
                             (3, node 3 []); (4, node 4 [])];
     get_linked_entities_id_api := fun _ => [];
     get_links := fun _ => [];
     py_float := fun _ => None;
     py_lower := ascii_lower |}.

(** The height of a type in that tree. *)
Definition tree_rank (x : Z) : nat :=
  if x =? 1 then 2%nat else if x =? 2 then 1%nat else 0%nat.

(** A [typeIDWithSubs] criterion for the given type ids. *)
Definition with_subs (ids : list Z) : gmap string value :=
  {[ "operator" := VStr "equal"; "values" := VList (VInt <$> ids) ]}.

(** * The claims that do not hold as they are stated *)

(** C1 as stated: whatever operator the raw criterion gives, a
    [relationToID] criterion is resolved with operator ['equal']. *)
Definition relation_operator_forced_equal : Prop :=
  ∀ env depth i p,
    get_search_parameter env depth [("relationToID", [i])] = Ok p →
    p !! "operator" = Some (VStr "equal").

(** C4 as stated: an operator outside the known set raises for both
    combinators, whatever the other arguments are, and so does an ordering
    operator on present entity values that are not date-comparable. *)
Definition unknown_operator_always_raises : Prop :=
  ∀ ev op svs lo cmp,
    lo = VStr "or" ∨ lo = VStr "and" →
    existsb (str_is op) known_operators = false
    ∨ (existsb (str_is op) ordering_operators = true
       ∧ cmp = false ∧ truthy ev = true) →
    search_entity ev op svs lo cmp = Raise WrongOperatorError.

(** C6 as stated: with the operator and the combinator in place, resolving
    a pair never fails, whatever the descriptions of the links are. *)
Definition value_resolution_never_fails : Prop :=
  ∀ env parameter t bound,
    parameter !! "operator" = Some (VStr "greaterThanEqual") →
    parameter !! "logicalOperator" = Some (VStr "or") →
    is_ok (search_for_value env (VList [t; VInt bound]) parameter) = true.

(** C7 as stated: the resolved values carry no duplicates. *)
Definition subs_resolved_without_duplicates : Prop :=
  ∀ env depth i svs,
    get_search_values env depth "typeIDWithSubs" i = Ok svs → NoDup svs.

(** C10 as stated: with ['logicalOperator'] missing, one link with a
    non-empty description is enough for a missing-key error. *)
Definition missing_combinator_is_key_error : Prop :=
  ∀ env depth i t bound op l d,
    i !! "values" = Some (VList [VList [t; bound]]) →
    i !! "operator" = Some op →
    i !! "logicalOperator" = None →
    l ∈ get_links env t → link_description l = Some d → d ≠ EmptyString →
    ∃ key, get_search_parameter env depth [("valueTypeID", [i])]
           = Raise (KeyError key).

(** * Vocabulary and example data of the further properties *)

(** [item in entity_values] for a list of entity values. *)
Definition member_of (es : list value) (item : value) : bool :=
  existsb (py_eqb item) es.

(** The guard of [search_entity] on a list of entity values, for an
    operator other than ['like']. *)
Definition no_values_to_compare (es : list value) (cmp : bool) : bool :=
  match es with
  | [] => cmp
  | _ :: _ => false
  end.

Definition is_str (v : value) : bool :=
  match v with
  | VStr _ => true
  | _ => false
  end.

(** The category names [value_to_be_searched] has a branch for. *)
Definition categories : list string :=
  ["entityID"; "relationToID"; "valueTypeID"; "entityName";
   "entityDescription"; "entityAliases"; "entityCidocClass";
   "entitySystemClass"; "typeName"; "typeID"; "typeIDWithSubs";
   "beginFrom"; "beginTo"; "endFrom"; "endTo"].

(** The resolved criterion [get_search_parameter] builds. *)
Definition resolved (svs : list value) (lo op : value) (category : string)
    (is_date : bool) : gmap string value :=
  list_to_map [("search_values", VList svs); ("logical_operator", lo);
               ("operator", op); ("category", VStr category);
               ("is_date", VBool is_date)].

(** The combinator a raw criterion is resolved with. *)
Definition combinator_of (i : gmap string value) : value :=
  default (VStr "or") (i !! "logicalOperator").

(** The domain ids of the links of type [t] whose value passes the test of
    the raw criterion. *)
Definition matching_domains (env : Env) (op lo t bound : value) : list Z :=
  link_domain_id
    <$> List.filter (fun l => returns_true (link_value_matches env op lo bound l))
          (get_links env t).

Definition zero_links : list Link :=
  [ {| link_description := Some "0"; link_domain_id := 7 |};
    {| link_description := Some "0.0"; link_domain_id := 8 |} ].

(** [(5, -1)] with [greaterThan]: every value above minus one. *)
Definition above_minus_one : gmap string value :=
  {[ "operator" := VStr "greaterThan";
     "logicalOperator" := VStr "or";
     "values" := VList [VList [VInt 5; VInt (-1)]] ]}.

(** A type table with a loop: type 1 has sub type 2, and type 2 has sub
    type 1. *)
Definition loop_env : Env :=
  {| g_types := list_to_map [(1, node 1 [2]); (2, node 2 [1])];
     get_linked_entities_id_api := fun _ => [];
     get_links := fun _ => [];
     py_float := fun _ => None;
     py_lower := ascii_lower |}.

(** An entity tagged with the given types. *)
Definition typed_entity (id_ : Z) (types : list Type_) : Entity :=
  {| entity_id := id_; entity_name := "typed"; entity_description := None;
     entity_aliases := []; entity_cidoc_class_code := "E18";
     entity_class_name := "place"; entity_types := types;
     entity_begin_from := None; entity_begin_to := None;
     entity_end_from := None; entity_end_to := None |}.

(** The ids linked to one of the given raw values. *)
Definition linked_ids (env : Env) (items : list value) : list Z :=
  concat (get_linked_entities_id_api env <$> (lower_if_str env <$> items)).

(** An entity known under the given aliases. *)
Definition aliased_entity (id_ : Z) (aliases : list (Z * string)) : Entity :=
  {| entity_id := id_; entity_name := "aliased"; entity_description := None;
     entity_aliases := aliases; entity_cidoc_class_code := "E21";
     entity_class_name := "person"; entity_types := [];
     entity_begin_from := None; entity_begin_to := None;
     entity_end_from := None; entity_end_to := None |}.

(** * Properties *)

(** ** Basic facts about the embedding *)

Lemma str_is_true (v : value) (s : string) : str_is v s = true ↔ v = VStr s.
Proof.
  unfold str_is. destruct v as [b|z|f|t|d|l]; simpl;
    try (split; [discriminate | intros H; discriminate H]).
  rewrite String.eqb_eq. split; [intros ->; reflexivity | congruence].
Qed.

Lemma str_is_VStr (s t : string) : str_is (VStr s) t = String.eqb s t.
Proof. reflexivity. Qed.

Lemma existsb_str_is_false (op : value) (names : list string) (k : string) :
  existsb (str_is op) names = false → k ∈ names → str_is op k = false.
Proof.
  intros H Hk. apply not_true_is_false. intros Ht.
  assert (existsb (str_is op) names = true) as He; [|congruence].
  apply existsb_exists. exists k. split; [by apply list_elem_of_In | done].
Qed.

Ltac known_names :=
  repeat first [ apply list_elem_of_here | apply list_elem_of_further ].

(** Once the guard on missing entity values is passed, an operator that
    enters no block raises. *)
Lemma search_entity_no_block ev op svs lo cmp :
  negb (truthy ev) && (str_is op "like" || cmp) = false →
  str_is op "equal" = false → str_is op "notEqual" = false →
  str_is op "like" = false →
  Forall (fun k => str_is op k && cmp = false) ordering_operators →
  search_entity ev op svs lo cmp = Raise WrongOperatorError.
Proof.
  intros Hguard He Hn Hl Hord. unfold search_entity. rewrite Hguard, He, Hn, Hl.
  repeat (apply Forall_cons in Hord as [-> Hord]). reflexivity.
Qed.

(** ** The operator evaluator *)

(** C5: with no entity values, operator [like] or a date-comparable
    criterion gives [False] for every list of search values (the empty one
    included) and every combinator, and nothing is raised. *)
Theorem empty_entity_values_no_match (op : value) (svs : list value)
    (lo : value) (cmp : bool) :
  op = VStr "like" ∨ cmp = true →
  search_entity (VList []) op svs lo cmp = Ok false.
Proof.
  intros H. unfold search_entity. simpl.
  destruct H as [-> | ->]; [reflexivity|].
  by rewrite orb_true_r.
Qed.

Lemma empty_entity_values_no_match_witness :
  (VStr "like" = VStr "like" ∨ false = true)
  ∧ search_entity (VList []) (VStr "like") [] (VStr "and") false = Ok false.
Proof.
  split; [left; reflexivity|].
  apply (empty_entity_values_no_match (VStr "like") [] (VStr "and") false).
  left; reflexivity.
Defined.

(** C4 as stated fails: with no entity values and a date-comparable
    criterion, the guard in the first line of [search_entity] answers [False] before the operator is
    looked at: operator ['contains'] does not raise there. *)
Lemma unknown_operator_guarded :
  search_entity (VList []) (VStr "contains") [VStr "x"] (VStr "or") true
  = Ok false
  ∧ ¬ unknown_operator_always_raises.
Proof.
  split; [reflexivity|].
  intros H.
  specialize (H (VList []) (VStr "contains") [VStr "x"] (VStr "or") true).
  discriminate H; [by left | by left].
Qed.

(** C4, as the code has it: an operator outside the known set, or an
    ordering operator on a criterion that is not date-comparable, raises
    [WrongOperatorError] for every combinator, except that an unknown
    operator on missing entity values of a date-comparable criterion is
    answered [False] by the guard. *)
Theorem wrong_operator_raises (ev op : value) (svs : list value)
    (lo : value) (cmp : bool) :
  existsb (str_is op) known_operators = false
  ∨ (existsb (str_is op) ordering_operators = true ∧ cmp = false) →
  search_entity ev op svs lo cmp
  = if negb (truthy ev) && cmp then Ok false else Raise WrongOperatorError.
Proof.
  intros [Hunknown | [Hord ->]].
  - pose proof (existsb_str_is_false _ _ "like" Hunknown ltac:(known_names))
      as Hlike.
    destruct (negb (truthy ev) && cmp) eqn:Hguard.
    + unfold search_entity. rewrite Hlike, orb_false_l. by rewrite Hguard.
    + apply search_entity_no_block.
      * by rewrite Hlike.
      * apply (existsb_str_is_false _ _ _ Hunknown); known_names.
      * apply (existsb_str_is_false _ _ _ Hunknown); known_names.
      * done.
      * repeat constructor;
          (rewrite (existsb_str_is_false _ _ _ Hunknown); [done | known_names]).
  - rewrite andb_false_r.
    apply existsb_exists in Hord as (k & Hk & Hop).
    apply str_is_true in Hop as ->.
    apply search_entity_no_block.
    + rewrite orb_false_r, str_is_VStr.
      simpl in Hk. destruct Hk as [<-|[<-|[<-|[<-|[]]]]]; by rewrite andb_false_r.
    + simpl in Hk. by destruct Hk as [<-|[<-|[<-|[<-|[]]]]].
    + simpl in Hk. by destruct Hk as [<-|[<-|[<-|[<-|[]]]]].
    + simpl in Hk. by destruct Hk as [<-|[<-|[<-|[<-|[]]]]].
    + repeat constructor; apply andb_false_r.
Qed.

Lemma wrong_operator_raises_witness :
  (existsb (str_is (VStr "contains")) known_operators = false
   ∨ (existsb (str_is (VStr "contains")) ordering_operators = true
      ∧ true = false))
  ∧ search_entity (VList [VInt 1]) (VStr "contains") [VInt 1] (VStr "and") true
    = Raise WrongOperatorError.
Proof.
  split; [left; reflexivity|].
  apply (wrong_operator_raises (VList [VInt 1]) (VStr "contains") [VInt 1]
           (VStr "and") true).
  left; reflexivity.
Defined.

Example ordering_operator_not_comparable :
  search_entity (VList [VInt 3]) (VStr "greaterThan") [VInt 1] (VStr "or") false
  = Raise WrongOperatorError.
Proof. reflexivity. Qed.

(** The value extractor hands a date field over as it is. *)
Lemma value_to_be_searched_beginFrom (env : Env) (entity : Entity)
    (d : date) :
  entity_begin_from entity = Some d →
  value_to_be_searched env entity (VStr "beginFrom") = VDate d.
Proof. intros H. unfold value_to_be_searched. simpl. by rewrite H. Qed.

(** C2 as stated fails: entity value 1990-01-01, search value 2000-01-01,
    [greaterThan], date-comparable.  The test is
    [search value < entity value], and 2000-01-01 is not before 1990-01-01,
    so the answer is [False] under either combinator. *)
Lemma greaterThan_1990_2000_false :
  search_entity (VDate date_1990_01_01) (VStr "greaterThan")
    [VDate date_2000_01_01] (VStr "or") true = Ok false
  ∧ search_entity (VDate date_1990_01_01) (VStr "greaterThan")
      [VDate date_2000_01_01] (VStr "and") true = Ok false
  ∧ Ok false ≠ Ok true.
Proof. repeat split; (reflexivity || discriminate). Qed.

(** C2, as the code has it: on a single search date, [greaterThan] on a
    date-comparable criterion is [search value < entity value] under
    either combinator (for every entity date but 1970-01-01, which the
    guard takes for a missing value and answers [False]); it is [False]
    for entity 1990-01-01 against 2000-01-01 and [True] for entity
    2000-01-01 against 1990-01-01. *)
Theorem greaterThan_single_date (entity_date search_date : date) :
  let run e s lo :=
    search_entity (VDate e) (VStr "greaterThan") [VDate s] (VStr lo) true in
  run entity_date search_date "or"
  = Ok (negb (date_eqb entity_date epoch) && date_ltb search_date entity_date)
  ∧ run entity_date search_date "and"
    = Ok (negb (date_eqb entity_date epoch)
          && date_ltb search_date entity_date)
  ∧ run date_1990_01_01 date_2000_01_01 "or" = Ok false
  ∧ run date_1990_01_01 date_2000_01_01 "and" = Ok false
  ∧ run date_2000_01_01 date_1990_01_01 "or" = Ok true
  ∧ run date_2000_01_01 date_1990_01_01 "and" = Ok true.
Proof.
  cbv zeta. split; [|split; [|repeat split; reflexivity]];
    unfold search_entity; cbn [truthy];
    destruct (date_eqb entity_date epoch); simpl; try done;
    by destruct (date_ltb search_date entity_date).
Qed.

(** ** Substring search: operator [like] *)

Lemma append_nil_l (s : string) : EmptyString +:+ s = s.
Proof. reflexivity. Qed.

Lemma append_cons (c : ascii) (s t : string) :
  String c s +:+ t = String c (s +:+ t).
Proof. reflexivity. Qed.

Lemma prefix_spec (s t : string) :
  String.prefix s t = true ↔ ∃ post, t = s +:+ post.
Proof.
  revert t. induction s as [|a s IH]; intros [|b t]; simpl.
  - split; [intros _; by exists EmptyString | done].
  - split; [intros _; by exists (String b t) | done].
  - split; [done | intros [post H]; discriminate H].
  - destruct (ascii_dec a b) as [->|Hne].
    + rewrite IH. split; intros [post H]; exists post.
      * by rewrite append_cons, H.
      * rewrite append_cons in H. congruence.
    + split; [done | intros [post H]; rewrite append_cons in H; congruence].
Qed.

Lemma str_in_nil (s : string) : str_in s EmptyString = String.prefix s EmptyString || false.
Proof. reflexivity. Qed.

Lemma str_in_cons (s : string) (c : ascii) (t : string) :
  str_in s (String c t) = String.prefix s (String c t) || str_in s t.
Proof. reflexivity. Qed.

Lemma str_in_spec (s t : string) : str_in s t = true ↔ substring_of s t.
Proof.
  induction t as [|c t IH].
  - rewrite str_in_nil, orb_false_r, prefix_spec. split.
    + intros [post H]. by exists EmptyString, post.
    + intros (pre & post & H). destruct pre; [|discriminate H].
      by exists post.
  - rewrite str_in_cons, orb_true_iff, IH, prefix_spec. split.
    + intros [[post H] | (pre & post & H)].
      * by exists EmptyString, post.
      * exists (String c pre), post. by rewrite append_cons, H.
    + intros (pre & post & H). destruct pre as [|c' pre].
      * left. by exists post.
      * right. exists pre, post. rewrite append_cons in H. congruence.
Qed.

Lemma py_any_pure {A} (f : A → result bool) (g : A → bool) (l : list A) :
  (∀ x, x ∈ l → f x = Ok (g x)) → py_any f l = Ok (existsb g l).
Proof.
  induction l as [|x l IH]; intros H; simpl; [done|].
  rewrite (H x) by apply list_elem_of_here. simpl.
  destruct (g x); [done|].
  apply IH. intros y Hy. apply H. by apply list_elem_of_further.
Qed.

Lemma py_all_pure {A} (f : A → result bool) (g : A → bool) (l : list A) :
  (∀ x, x ∈ l → f x = Ok (g x)) → py_all f l = Ok (forallb g l).
Proof.
  induction l as [|x l IH]; intros H; simpl; [done|].
  rewrite (H x) by apply list_elem_of_here. simpl.
  destruct (g x); [|done].
  apply IH. intros y Hy. apply H. by apply list_elem_of_further.
Qed.

Lemma bind_Ok {A B} (f : A → result B) (a : A) : Ok a ≫= f = f a.
Proof. reflexivity. Qed.

Lemma bind_Raise {A B} (f : A → result B) (e : exn) : Raise e ≫= f = Raise e.
Proof. reflexivity. Qed.

Lemma py_join_strs (sep : string) (es : list string) :
  py_join sep (VList (VStr <$> es)) = Ok (str_join sep es).
Proof.
  unfold py_join, py_iter.
  assert (mapM (fun p => match p with VStr s => Ok s | _ => Raise TypeError end)
            (VStr <$> es) = Ok es) as Hstrs.
  { induction es as [|e es IH]; [done|]; unfold fmap in *; simpl; by rewrite IH. }
  by rewrite bind_Ok, Hstrs, bind_Ok.
Qed.

Lemma truthy_nonempty_strs (es : list string) :
  es ≠ [] → truthy (VList (VStr <$> es)) = true.
Proof. by destruct es. Qed.

Lemma existsb_fmap_VStr (g : string → bool) (l : list string) :
  existsb (fun v => match v with VStr s => g s | _ => false end) (VStr <$> l)
  = existsb g l.
Proof. induction l as [|x l IH]; [done|]. simpl. by rewrite <- IH. Qed.

Lemma forallb_fmap_VStr (g : string → bool) (l : list string) :
  forallb (fun v => match v with VStr s => g s | _ => false end) (VStr <$> l)
  = forallb g l.
Proof. induction l as [|x l IH]; [done|]. simpl. by rewrite <- IH. Qed.

Lemma search_entity_like_or (es ss : list string) (cmp : bool) :
  es ≠ [] →
  search_entity (VList (VStr <$> es)) (VStr "like") (VStr <$> ss) (VStr "or") cmp
  = Ok (existsb (fun s => existsb (str_in s) es) ss).
Proof.
  intros Hes. unfold search_entity.
  rewrite (truthy_nonempty_strs _ Hes).
  change (default (Raise WrongOperatorError) _) with
    (py_any (fun item =>
               vs ← py_iter (VList (VStr <$> es));
               py_any (fun value => py_in item value) vs) (VStr <$> ss)).
  cbn [negb andb].
  rewrite (py_any_pure _ (fun v => match v with
                                   | VStr s => existsb (str_in s) es
                                   | _ => false
                                   end)).
  - by rewrite existsb_fmap_VStr.
  - intros v (s & -> & _)%list_elem_of_fmap.
    unfold py_iter. rewrite bind_Ok.
    rewrite (py_any_pure _ (fun v => match v with
                                     | VStr e => str_in s e
                                     | _ => false
                                     end)).
    + by rewrite existsb_fmap_VStr.
    + by intros v (e & -> & _)%list_elem_of_fmap.
Qed.

Lemma search_entity_like_and (es ss : list string) (cmp : bool) :
  es ≠ [] →
  search_entity (VList (VStr <$> es)) (VStr "like") (VStr <$> ss) (VStr "and") cmp
  = Ok (forallb (fun s => str_in s (str_join " " es)) ss).
Proof.
  intros Hes. unfold search_entity.
  rewrite (truthy_nonempty_strs _ Hes).
  change (default (Raise WrongOperatorError) _) with
    (py_all (fun item =>
               joined ← py_join " " (VList (VStr <$> es));
               py_in item (VStr joined)) (VStr <$> ss)).
  cbn [negb andb].
  rewrite (py_all_pure _ (fun v => match v with
                                   | VStr s => str_in s (str_join " " es)
                                   | _ => false
                                   end)).
  - by rewrite forallb_fmap_VStr.
  - intros v (s & -> & _)%list_elem_of_fmap. by rewrite py_join_strs.
Qed.

(** The join of the code is the join of the Standard Library: the parts in
    their order, with the separator once between two neighbours. *)
Lemma str_join_concat (sep : string) (parts : list string) :
  str_join sep parts = String.concat sep parts.
Proof.
  induction parts as [|p parts IH]; [done|].
  destruct parts as [|q parts]; [done|].
  change (str_join sep (p :: q :: parts))
    with (p +:+ sep +:+ str_join sep (q :: parts)).
  change (String.concat sep (p :: q :: parts))
    with (p +:+ sep +:+ String.concat sep (q :: parts)).
  by rewrite IH.
Qed.

(** C8: on a non-empty list of entity strings, [like] with [or] is [True]
    iff some search string occurs in some entity string, and [like] with
    [and] is [True] iff every search string occurs in the entity strings
    joined by single spaces ([String.concat] of the Standard Library with
    separator [" "]). *)
Theorem like_is_substring_search (es ss : list string) (cmp : bool) :
  es ≠ [] →
  ∃ b_or b_and : bool,
    search_entity (VList (VStr <$> es)) (VStr "like") (VStr <$> ss)
      (VStr "or") cmp = Ok b_or
    ∧ (b_or = true ↔ ∃ s e, s ∈ ss ∧ e ∈ es ∧ substring_of s e)
    ∧ search_entity (VList (VStr <$> es)) (VStr "like") (VStr <$> ss)
        (VStr "and") cmp = Ok b_and
    ∧ (b_and = true ↔ ∀ s, s ∈ ss → substring_of s (String.concat " " es)).
Proof.
  intros Hes.
  exists (existsb (fun s => existsb (str_in s) es) ss),
         (forallb (fun s => str_in s (str_join " " es)) ss).
  split; [by apply search_entity_like_or|].
  split.
  { rewrite existsb_exists. split.
    - intros (s & Hs & (e & He & Hin)%existsb_exists).
      exists s, e. rewrite !list_elem_of_In. by rewrite <- str_in_spec.
    - intros (s & e & Hs & He & Hsub). exists s.
      split; [by apply list_elem_of_In|].
      apply existsb_exists. exists e.
      split; [by apply list_elem_of_In | by apply str_in_spec]. }
  split; [by apply search_entity_like_and|].
  rewrite forallb_forall.
  replace (String.concat " " es) with (str_join " " es)
    by apply str_join_concat.
  split.
  - intros H s Hs. apply str_in_spec, H. by apply list_elem_of_In.
  - intros H s Hs. apply str_in_spec, H. by apply list_elem_of_In.
Qed.

(** Two entity values: ["n f"] occurs in neither, and occurs in their join
    only because of the single space put between them. *)
Lemma like_is_substring_search_witness :
  ["san"; "francisco"] ≠ []
  ∧ String.concat " " ["san"; "francisco"] = "san francisco"
  ∧ search_entity (VList (VStr <$> ["san"; "francisco"])) (VStr "like")
      (VStr <$> ["n f"]) (VStr "and") false = Ok true
  ∧ search_entity (VList (VStr <$> ["san"; "francisco"])) (VStr "like")
      (VStr <$> ["n f"]) (VStr "or") false = Ok false
  ∧ ∃ b_or b_and : bool,
      search_entity (VList (VStr <$> ["san"; "francisco"])) (VStr "like")
        (VStr <$> ["n f"]) (VStr "or") false = Ok b_or
      ∧ (b_or = true ↔ ∃ s e, s ∈ ["n f"] ∧ e ∈ ["san"; "francisco"]
                               ∧ substring_of s e)
      ∧ search_entity (VList (VStr <$> ["san"; "francisco"])) (VStr "like")
          (VStr <$> ["n f"]) (VStr "and") false = Ok b_and
      ∧ (b_and = true ↔ ∀ s, s ∈ ["n f"] →
                            substring_of s
                              (String.concat " " ["san"; "francisco"])).
Proof.
  assert (["san"; "francisco"] ≠ []) as Hes by discriminate.
  pose proof (like_is_substring_search ["san"; "francisco"] ["n f"] false Hes)
    as Hlike.
  split; [exact Hes|]. split; [reflexivity|].
  destruct Hlike as (b_or & b_and & Hor & Hor_iff & Hand & Hand_iff).
  split; [|split].
  - rewrite Hand. f_equal. apply Hand_iff.
    intros s ->%list_elem_of_singleton. by exists "sa", "rancisco".
  - rewrite Hor. f_equal. destruct b_or; [|done]. exfalso.
    destruct (proj1 Hor_iff eq_refl) as (s & e & Hs & He & Hsub).
    apply list_elem_of_singleton in Hs as ->. apply str_in_spec in Hsub.
    repeat (apply elem_of_cons in He as [-> | He];
            [vm_compute in Hsub; discriminate Hsub|]).
    by apply elem_of_nil in He.
  - by exists b_or, b_and.
Defined.

(** The example of C8: entity values [["san francisco"]]. *)
Example like_san_francisco :
  let ev := VList [VStr "san francisco"] in
  search_entity ev (VStr "like") [VStr "san"; VStr "cisco"] (VStr "and") false
  = Ok true
  ∧ search_entity ev (VStr "like") [VStr "san"; VStr "cisco"] (VStr "or") false
    = Ok true
  ∧ search_entity ev (VStr "like") [VStr "rome"] (VStr "and") false = Ok false
  ∧ search_entity ev (VStr "like") [VStr "rome"] (VStr "or") false = Ok false.
Proof. repeat split; reflexivity. Qed.

(** With several entity values, [and] looks into their join and [or] into
    each of them. *)
Example like_across_entity_values :
  let ev := VList [VStr "san"; VStr "francisco"] in
  search_entity ev (VStr "like") [VStr "san fran"] (VStr "and") false = Ok true
  ∧ search_entity ev (VStr "like") [VStr "san fran"] (VStr "or") false
    = Ok false
  ∧ search_entity ev (VStr "like") [VStr "sanfran"] (VStr "and") false
    = Ok false
  ∧ search_entity ev (VStr "like") [VStr "san  fran"] (VStr "and") false
    = Ok false.
Proof. repeat split; reflexivity. Qed.

(** ** The orchestrator *)

Lemma filterM_pure {A} (f : A → result bool) (l : list A) :
  forallb (fun x => is_ok (f x)) l = true →
  filterM f l = Ok (List.filter (fun x => returns_true (f x)) l).
Proof.
  induction l as [|x l IH]; simpl; [done|].
  intros [Hx Hl]%andb_true_iff. rewrite (IH Hl).
  destruct (f x) as [b|e]; [|discriminate Hx]. by destruct b.
Qed.

Lemma filter_nonempty_existsb {A} (g : A → bool) (l : list A) :
  match List.filter g l with [] => false | _ :: _ => true end = existsb g l.
Proof.
  induction l as [|x l IH]; simpl; [done|]. destruct (g x); simpl; done.
Qed.

Lemma iterate_through_entities_any (env : Env) (entity : Entity)
    (ps : list (gmap string value)) :
  forallb (fun p => is_ok (search_result env entity p)) ps = true →
  iterate_through_entities env entity ps
  = Ok (existsb (fun p => returns_true (search_result env entity p)) ps).
Proof.
  intros H. unfold iterate_through_entities.
  rewrite (filterM_pure _ _ H), bind_Ok. by rewrite filter_nonempty_existsb.
Qed.

Lemma sublist_filter {A} (g : A → bool) (l : list A) :
  sublist (List.filter g l) l.
Proof.
  induction l as [|x l IH]; simpl; [constructor|].
  destruct (g x); by constructor.
Qed.

(** C3: [search] returns exactly the entities for which at least one
    resolved criterion evaluates to [True], in the order of the input list;
    a criterion's combinator is read only inside the evaluation of that
    criterion.  The criteria are resolved once ([ps]) and every evaluation
    is assumed to return. *)
Theorem search_keeps_matches_of_any_criterion (env : Env) (depth : nat)
    (entities : list Entity)
    (parser : list (list (string * list (gmap string value))))
    (ps : list (gmap string value)) :
  mapM (get_search_parameter env depth) parser = Ok ps →
  forallb (fun e => forallb (fun p => is_ok (search_result env e p)) ps) entities
  = true →
  search env depth entities parser = Ok (List.filter (matches_any env ps) entities)
  ∧ sublist (List.filter (matches_any env ps) entities) entities
  ∧ ∀ e, e ∈ List.filter (matches_any env ps) entities
         ↔ e ∈ entities ∧ ∃ p, p ∈ ps ∧ search_result env e p = Ok true.
Proof.
  intros Hps Hok. unfold search. rewrite Hps, bind_Ok.
  assert (filterM (fun e => iterate_through_entities env e ps) entities
          = Ok (List.filter (matches_any env ps) entities)) as ->.
  { clear Hps. induction entities as [|e es IH]; simpl; [done|].
    simpl in Hok. apply andb_true_iff in Hok as [He Hes].
    rewrite (iterate_through_entities_any _ _ _ He), bind_Ok, (IH Hes), bind_Ok.
    done. }
  split; [done|]. split; [apply sublist_filter|].
  intros e. rewrite list_elem_of_In, filter_In, <- list_elem_of_In.
  unfold matches_any. rewrite existsb_exists.
  split; intros [He (p & Hp & Hres)]; (split; [done|]); exists p.
  - split; [by apply list_elem_of_In|].
    by destruct (search_result env e p) as [[]|].
  - split; [by apply list_elem_of_In|]. by rewrite Hres.
Qed.

Lemma search_keeps_matches_of_any_criterion_witness :
  mapM (get_search_parameter empty_env 0) [by_name_alpha; by_id_2]
  = Ok [resolved_by_name_alpha; resolved_by_id_2]
  ∧ forallb (fun e => forallb (fun p => is_ok (search_result empty_env e p))
                        [resolved_by_name_alpha; resolved_by_id_2])
      [entity_A; entity_B; entity_C] = true
  ∧ search empty_env 0 [entity_A; entity_B; entity_C] [by_name_alpha; by_id_2]
    = Ok [entity_A; entity_B].
Proof.
  assert (mapM (get_search_parameter empty_env 0) [by_name_alpha; by_id_2]
          = Ok [resolved_by_name_alpha; resolved_by_id_2]) as Hps
    by (vm_compute; reflexivity).
  assert (forallb (fun e => forallb (fun p => is_ok (search_result empty_env e p))
                              [resolved_by_name_alpha; resolved_by_id_2])
            [entity_A; entity_B; entity_C] = true) as Hok
    by (vm_compute; reflexivity).
  split; [exact Hps|]. split; [exact Hok|].
  destruct (search_keeps_matches_of_any_criterion empty_env 0
              [entity_A; entity_B; entity_C] [by_name_alpha; by_id_2]
              [resolved_by_name_alpha; resolved_by_id_2] Hps Hok) as [-> _].
  vm_compute. reflexivity.
Defined.

(** ** The criterion resolver: one resolved criterion per parser dict *)

Section LastWins.

Context (env : Env) (depth : nat).

Local Abbreviation update_with := (update_parameter env depth).
Local Abbreviation inner := (inner_loop env depth).
Local Abbreviation outer := (outer_loop env depth).

Lemma resolve_keys category i new k :
  resolve env depth category i = Ok new →
  is_Some (new !! k) ↔ k ∈ parameter_keys.
Proof.
  unfold resolve. intros H.
  destruct (get_search_values env depth category i) as [svs|]; [|done].
  rewrite bind_Ok in H.
  destruct (if String.eqb category "valueTypeID" then Ok (VStr "equal")
            else dict_get i "operator") as [op|]; [|done].
  rewrite bind_Ok in H. injection H as <-.
  unfold parameter_keys. rewrite <- elem_of_dom.
  rewrite !dom_insert_L, dom_empty_L. set_solver.
Qed.

(** [update] with a full set of keys leaves nothing of the old dict. *)
Lemma dict_update_overwrites category i new parameter :
  resolve env depth category i = Ok new →
  (∀ k, is_Some (parameter !! k) → k ∈ parameter_keys) →
  dict_update parameter new = new.
Proof.
  intros Hnew Hold. unfold dict_update. apply map_eq. intros k.
  rewrite lookup_union.
  destruct (new !! k) as [v|] eqn:Hk; [by destruct (parameter !! k)|].
  destruct (parameter !! k) as [w|] eqn:Hw; [|done].
  assert (is_Some (new !! k)) as [v Hv]; [|congruence].
  eapply resolve_keys; [done|]. apply Hold. by rewrite Hw.
Qed.

Lemma update_with_overwrites parameter category i :
  (∀ k, is_Some (parameter !! k) → k ∈ parameter_keys) →
  update_with (Ok parameter) category i = resolve env depth category i.
Proof.
  intros Hold. unfold update_parameter. rewrite bind_Ok.
  destruct (resolve env depth category i) as [new|e] eqn:Hnew; [|done].
  rewrite bind_Ok. f_equal. by eapply dict_update_overwrites.
Qed.

Lemma update_with_keys acc category i parameter k :
  (∀ p, acc = Ok p → ∀ k, is_Some (p !! k) → k ∈ parameter_keys) →
  update_with acc category i = Ok parameter →
  is_Some (parameter !! k) → k ∈ parameter_keys.
Proof.
  intros Hacc H. destruct acc as [p|e]; [|done].
  rewrite update_with_overwrites in H by by apply Hacc.
  by apply (resolve_keys _ _ _ k) in H as ->.
Qed.

Lemma well_keyed_empty : well_keyed (Ok ∅).
Proof. intros p [= <-] k [v Hv]. by rewrite lookup_empty in Hv. Qed.

Lemma well_keyed_update acc category i :
  well_keyed acc → well_keyed (update_with acc category i).
Proof. intros Hacc p Hp k. by eapply update_with_keys. Qed.

Lemma well_keyed_inner category acc criteria :
  well_keyed acc → well_keyed (inner category acc criteria).
Proof.
  revert acc. induction criteria as [|i criteria IH]; intros acc Hacc; [done|].
  apply IH. by apply well_keyed_update.
Qed.

Lemma well_keyed_outer acc parser :
  well_keyed acc → well_keyed (outer acc parser).
Proof.
  revert acc. induction parser as [|item parser IH]; intros acc Hacc; [done|].
  apply IH. by apply well_keyed_inner.
Qed.

Lemma inner_Raise category e criteria :
  inner category (Raise e) criteria = Raise e.
Proof. induction criteria as [|i criteria IH]; [done|]. apply IH. Qed.

Lemma inner_app category acc criteria criteria' :
  inner category acc (criteria ++ criteria')
  = inner category (inner category acc criteria) criteria'.
Proof. apply foldl_app. Qed.

Lemma outer_app acc parser parser' :
  outer acc (parser ++ parser') = outer (outer acc parser) parser'.
Proof. apply foldl_app. Qed.

(** Whatever was accumulated, the criterion processed last decides. *)
Lemma inner_snoc category acc criteria last :
  well_keyed acc → is_ok (inner category acc criteria) = true →
  inner category acc (criteria ++ [last]) = resolve env depth category last.
Proof.
  intros Hacc Hok. rewrite inner_app.
  pose proof (well_keyed_inner category acc criteria Hacc) as Hkeys.
  destruct (inner category acc criteria) as [p|e]; [|done].
  simpl. apply update_with_overwrites. by apply Hkeys.
Qed.

Lemma search_single_parser entities parser parser' :
  outer (Ok ∅) parser = outer (Ok ∅) parser' →
  search env depth entities [parser] = search env depth entities [parser'].
Proof.
  intros H. unfold search.
  change (mapM (get_search_parameter env depth) [parser])
    with (y ← outer (Ok ∅) parser; k ← Ok []; Ok (y :: k)).
  change (mapM (get_search_parameter env depth) [parser'])
    with (y ← outer (Ok ∅) parser'; k ← Ok []; Ok (y :: k)).
  by rewrite H.
Qed.

(** C9: when a parser dict gives several criteria for one category, the
    resolved parameter is that of the last one: earlier ones are
    overwritten, and the search is the search for the parser dict that
    gives the last one alone.  The earlier criteria are still resolved, so
    they are assumed to resolve without an exception. *)
Theorem last_criterion_of_category_wins
    (before after : list (string * list (gmap string value)))
    (category : string) (earlier : list (gmap string value))
    (last : gmap string value) :
  is_ok (get_search_parameter env depth (before ++ [(category, earlier)]))
  = true →
  get_search_parameter env depth
    (before ++ [(category, earlier ++ [last])] ++ after)
  = get_search_parameter env depth (before ++ [(category, [last])] ++ after)
  ∧ get_search_parameter env depth (before ++ [(category, earlier ++ [last])])
    = resolve env depth category last
  ∧ ∀ entities,
      search env depth entities
        [before ++ [(category, earlier ++ [last])] ++ after]
      = search env depth entities [before ++ [(category, [last])] ++ after].
Proof.
  intros Hok.
  change (get_search_parameter env depth) with (outer (Ok ∅)) in *.
  rewrite outer_app in Hok. simpl in Hok.
  pose proof (well_keyed_outer (Ok ∅) before well_keyed_empty) as Hkeys.
  assert (is_ok (outer (Ok ∅) before) = true) as Hbefore.
  { destruct (outer (Ok ∅) before); [done|]. by rewrite inner_Raise in Hok. }
  assert (outer (Ok ∅) (before ++ [(category, earlier ++ [last])])
          = resolve env depth category last) as Hlast.
  { rewrite outer_app. simpl. by apply inner_snoc. }
  assert (outer (Ok ∅) (before ++ [(category, [last])])
          = resolve env depth category last) as Hlast'.
  { rewrite outer_app. simpl.
    by apply (inner_snoc category (outer (Ok ∅) before) []). }
  assert (outer (Ok ∅) (before ++ [(category, earlier ++ [last])] ++ after)
          = outer (Ok ∅) (before ++ [(category, [last])] ++ after)) as Heq.
  { rewrite !(assoc_L (++)), !(outer_app _ _ after). by rewrite Hlast, Hlast'. }
  split; [exact Heq|]. split; [exact Hlast|].
  intros entities. by apply search_single_parser.
Qed.

End LastWins.

Lemma last_criterion_of_category_wins_witness :
  is_ok (get_search_parameter empty_env 0 ([] ++ [("entityID", [equal_1])]))
  = true
  ∧ get_search_parameter empty_env 0
      ([] ++ [("entityID", [equal_1] ++ [equal_2])] ++ [])
    = get_search_parameter empty_env 0 ([] ++ [("entityID", [equal_2])] ++ [])
  ∧ get_search_parameter empty_env 0 ([] ++ [("entityID", [equal_1] ++ [equal_2])])
    = resolve empty_env 0 "entityID" equal_2
  ∧ ∀ entities,
      search empty_env 0 entities
        [[] ++ [("entityID", [equal_1] ++ [equal_2])] ++ []]
      = search empty_env 0 entities [[] ++ [("entityID", [equal_2])] ++ []].
Proof.
  split; [vm_compute; reflexivity|].
  apply (last_criterion_of_category_wins empty_env 0 [] [] "entityID"
           [equal_1] equal_2).
  vm_compute; reflexivity.
Defined.

Example last_criterion_only_entity_2 :
  search empty_env 0 [entity_A; entity_B; entity_C]
    [[("entityID", [equal_1; equal_2])]] = Ok [entity_B].
Proof. vm_compute. reflexivity. Qed.

(** ** Resolution of [relationToID] *)

Lemma search_result_resolved (env : Env) (entity : Entity)
    (svs : list value)
    (lo op : value) (category : string) (is_date : bool) :
  search_result env entity
    (list_to_map [("search_values", VList svs); ("logical_operator", lo);
                  ("operator", op); ("category", VStr category);
                  ("is_date", VBool is_date)])
  = search_entity (value_to_be_searched env entity (VStr category)) op svs lo
      is_date.
Proof.
  unfold search_result, dict_get. simpl list_to_map.
  by simplify_map_eq.
Qed.

Lemma get_search_parameter_single (env : Env) (depth : nat)
    (category : string) (i : gmap string value) :
  get_search_parameter env depth [(category, [i])]
  = resolve env depth category i.
Proof.
  apply (update_with_overwrites env depth ∅ category i).
  intros k [v Hv]. by rewrite lookup_empty in Hv.
Qed.

Lemma elem_of_concat {A} (ll : list (list A)) (x : A) :
  x ∈ concat ll ↔ ∃ l, l ∈ ll ∧ x ∈ l.
Proof.
  induction ll as [|l ll IH]; simpl.
  - split; [by intros ?%elem_of_nil | by intros (l & ?%elem_of_nil & _)].
  - rewrite elem_of_app, IH. split.
    + intros [Hx | (l' & Hl' & Hx)].
      * exists l. split; [apply list_elem_of_here | done].
      * exists l'. split; [by apply list_elem_of_further | done].
    + intros (l' & [-> | Hl']%elem_of_cons & Hx); [by left|].
      right. by exists l'.
Qed.

Lemma elem_of_flatten (ll : list (list Z)) (x : Z) :
  x ∈ flatten_list_and_remove_duplicates ll ↔ ∃ l, l ∈ ll ∧ x ∈ l.
Proof.
  unfold flatten_list_and_remove_duplicates.
  rewrite elem_of_remove_dups. apply elem_of_concat.
Qed.

Lemma NoDup_flatten (ll : list (list Z)) :
  NoDup (flatten_list_and_remove_duplicates ll).
Proof. apply NoDup_remove_dups. Qed.

(** C1 as stated fails: the operator is forced for [valueTypeID] only; a
    [relationToID] criterion with ['notEqual'] is resolved and evaluated
    with ['notEqual'], and it keeps the entities that are not linked. *)
Lemma relation_operator_not_forced :
  (get_search_parameter one_link_env 0 [("relationToID", [not_related_to_1])]
   ≫= fun p => dict_get p "operator") = Ok (VStr "notEqual")
  ∧ search one_link_env 0 [entity_B; entity_C]
      [[("relationToID", [not_related_to_1])]] = Ok [entity_C]
  ∧ ¬ relation_operator_forced_equal.
Proof.
  split; [vm_compute; reflexivity|]. split; [vm_compute; reflexivity|].
  intros H.
  destruct (get_search_parameter one_link_env 0
              [("relationToID", [not_related_to_1])]) as [p|] eqn:Hp;
    [|vm_compute in Hp; discriminate Hp].
  specialize (H _ _ _ _ Hp).
  vm_compute in Hp. injection Hp as <-. vm_compute in H. discriminate H.
Qed.

(** C1, as the code has it: the search values of a [relationToID]
    criterion are the ids linked to the given values, flattened and without
    duplicates, and the criterion is resolved and evaluated with the
    operator the raw criterion gives. *)
Theorem relation_criterion_resolved (env : Env) (depth : nat)
    (i : gmap string value) (items : list value) (op : value) :
  i !! "values" = Some (VList items) →
  i !! "operator" = Some op →
  ∃ ids : list Z,
    let lo := default (VStr "or") (i !! "logicalOperator") in
    let p := list_to_map
               [("search_values", VList (VInt <$> ids));
                ("logical_operator", lo); ("operator", op);
                ("category", VStr "relationToID"); ("is_date", VBool false)] in
    get_search_parameter env depth [("relationToID", [i])] = Ok p
    ∧ NoDup ids
    ∧ (∀ x, x ∈ ids ↔ ∃ v, v ∈ items
              ∧ x ∈ get_linked_entities_id_api env (lower_if_str env v))
    ∧ ∀ entity,
        search_result env entity p
        = search_entity (VList [VInt (entity_id entity)]) op (VInt <$> ids)
            lo false.
Proof.
  intros Hvalues Hop.
  exists (flatten_list_and_remove_duplicates
            (get_linked_entities_id_api env <$> (lower_if_str env <$> items))).
  cbv zeta. split; [|split; [apply NoDup_flatten|split]].
  - rewrite get_search_parameter_single. unfold resolve, get_search_values.
    unfold dict_get. rewrite Hvalues, Hop. reflexivity.
  - intros x. rewrite elem_of_flatten. split.
    + intros (l & (w & -> & (v & -> & Hv)%list_elem_of_fmap)%list_elem_of_fmap
                & Hx).
      by exists v.
    + intros (v & Hv & Hx). eexists. split; [|exact Hx].
      apply list_elem_of_fmap. eexists. split; [done|].
      apply list_elem_of_fmap. by exists v.
  - intros entity. by rewrite search_result_resolved.
Qed.

Lemma relation_criterion_resolved_witness :
  not_related_to_1 !! "values" = Some (VList [VInt 1])
  ∧ not_related_to_1 !! "operator" = Some (VStr "notEqual")
  ∧ ∃ ids : list Z,
      let lo := default (VStr "or") (not_related_to_1 !! "logicalOperator") in
      let p := list_to_map
                 [("search_values", VList (VInt <$> ids));
                  ("logical_operator", lo); ("operator", VStr "notEqual");
                  ("category", VStr "relationToID");
                  ("is_date", VBool false)] in
      get_search_parameter one_link_env 0
        [("relationToID", [not_related_to_1])] = Ok p
      ∧ NoDup ids
      ∧ (∀ x, x ∈ ids ↔ ∃ v, v ∈ [VInt 1]
                ∧ x ∈ get_linked_entities_id_api one_link_env
                        (lower_if_str one_link_env v))
      ∧ ∀ entity,
          search_result one_link_env entity p
          = search_entity (VList [VInt (entity_id entity)]) (VStr "notEqual")
              (VInt <$> ids) lo false.
Proof.
  split; [vm_compute; reflexivity|]. split; [vm_compute; reflexivity|].
  apply (relation_criterion_resolved one_link_env 0 not_related_to_1
           [VInt 1] (VStr "notEqual")); vm_compute; reflexivity.
Defined.

(** ** Resolution of [valueTypeID] *)

Section ValueLinks.

Context (env : Env) (parameter : gmap string value) (op lo : value).
Context (Hop : parameter !! "operator" = Some op).
Context (Hlo : parameter !! "logicalOperator" = Some lo).

Lemma search_for_value_unfold (t bound : value) (rest : list value) :
  search_for_value env (VList (t :: bound :: rest)) parameter
  = foldl (visit_link env parameter (VList (t :: bound :: rest))) (Ok []) (get_links env t).
Proof. reflexivity. Qed.

Lemma visit_link_Raise values e links :
  foldl (visit_link env parameter values) (Raise e) links = Raise e.
Proof. induction links as [|l links IH]; [done|]. apply IH. Qed.

Lemma visit_link_matches (t bound : value) (rest : list value) ids link_ :
  visit_link env parameter (VList (t :: bound :: rest)) (Ok ids) link_
  = matched ← link_value_matches env op lo bound link_;
    Ok (if (matched : bool) then ids ++ [link_domain_id link_] else ids).
Proof.
  unfold visit_link, link_value_matches, dict_get. rewrite Hop, Hlo, bind_Ok.
  destruct (link_description link_) as [d|]; [|done].
  destruct (truthy (VStr d)); [|done].
  rewrite bind_Ok. by destruct (py_float env d).
Qed.

Lemma visit_links_filterM (t bound : value) (rest : list value) ids links :
  foldl (visit_link env parameter (VList (t :: bound :: rest))) (Ok ids) links
  = matching ← filterM (link_value_matches env op lo bound) links;
    Ok (ids ++ (link_domain_id <$> matching)).
Proof.
  revert ids. induction links as [|l links IH]; intros ids.
  - simpl. by rewrite app_nil_r.
  - cbn [foldl filterM]. rewrite visit_link_matches.
    destruct (link_value_matches env op lo bound l) as [[]|e]; simpl.
    + rewrite IH.
      destruct (filterM (link_value_matches env op lo bound) links); simpl;
        [|done].
      by rewrite <- (assoc_L (++)).
    + rewrite IH.
      by destruct (filterM (link_value_matches env op lo bound) links).
    + apply visit_link_Raise.
Qed.

Lemma search_for_value_filterM (t bound : value) (rest : list value) :
  search_for_value env (VList (t :: bound :: rest)) parameter
  = filterM (link_value_matches env op lo bound) (get_links env t)
    ≫= fun matching : list Link => Ok (link_domain_id <$> matching).
Proof. rewrite search_for_value_unfold. apply visit_links_filterM. Qed.

Lemma link_without_description_skipped (bound : value) (link_ : Link) :
  link_description link_ = None ∨ link_description link_ = Some EmptyString →
  link_value_matches env op lo bound link_ = Ok false.
Proof. unfold link_value_matches. by intros [-> | ->]. Qed.

Lemma truthy_VStr (d : string) : d ≠ EmptyString → truthy (VStr d) = true.
Proof.
  intros Hd. simpl. apply negb_true_iff, not_true_is_false.
  by intros ?%String.eqb_eq.
Qed.

Lemma link_not_a_float (bound : value) (link_ : Link) (d : string) :
  link_description link_ = Some d → d ≠ EmptyString → py_float env d = None →
  link_value_matches env op lo bound link_ = Raise ValueError.
Proof.
  intros Hd Hne Hf. unfold link_value_matches.
  by rewrite Hd, (truthy_VStr _ Hne), Hf.
Qed.

Lemma filterM_Raise_at {A} (f : A → result bool) (l1 : list A) (x : A)
    (l2 : list A) (e : exn) :
  forallb (fun y => is_ok (f y)) l1 = true → f x = Raise e →
  filterM f (l1 ++ x :: l2) = Raise e.
Proof.
  intros Hl1 Hx. induction l1 as [|y l1 IH]; simpl.
  - by rewrite Hx.
  - simpl in Hl1. apply andb_true_iff in Hl1 as [Hy Hl1].
    rewrite (IH Hl1). by destruct (f y).
Qed.

Lemma filterM_not_ok {A} (f : A → result bool) (l : list A) (x : A) :
  x ∈ l → is_ok (f x) = false → is_ok (filterM f l) = false.
Proof.
  intros Hx Hf. induction l as [|y l IH]; [by apply elem_of_nil in Hx|].
  simpl. destruct (f y) as [b|e] eqn:Hy; [|done].
  apply elem_of_cons in Hx as [->|Hx]; [by rewrite Hy in Hf|].
  rewrite bind_Ok. specialize (IH Hx). by destruct (filterM f l).
Qed.

End ValueLinks.

(** C6, as the code has it: for a pair [(link_type_id, numeric_value)],
    every link with a non-empty description is converted with [float()] and
    evaluated against [numeric_value]; a link with no description or an
    empty one is passed over without error; a link whose description
    [float()] rejects is not passed over: the resolution stops with
    [ValueError].  When every link can be evaluated, the result is the
    domain ids of the links that match, in link order. *)
Theorem value_links_resolved (env : Env) (parameter : gmap string value)
    (op lo t bound : value) (rest : list value) :
  parameter !! "operator" = Some op →
  parameter !! "logicalOperator" = Some lo →
  let links := get_links env t in
  let test := link_value_matches env op lo bound in
  let run := search_for_value env (VList (t :: bound :: rest)) parameter in
  (forallb (fun l => is_ok (test l)) links = true →
   run = Ok (link_domain_id <$> List.filter (fun l => returns_true (test l)) links))
  ∧ (∀ l, link_description l = None ∨ link_description l = Some EmptyString →
          test l = Ok false)
  ∧ (∀ l d, l ∈ links → link_description l = Some d → d ≠ EmptyString →
            py_float env d = None → is_ok run = false)
  ∧ (∀ before l after d,
       links = before ++ l :: after →
       forallb (fun l' => is_ok (test l')) before = true →
       link_description l = Some d → d ≠ EmptyString → py_float env d = None →
       run = Raise ValueError).
Proof.
  intros Hop Hlo links test run. subst run.
  rewrite (search_for_value_filterM env parameter op lo Hop Hlo).
  fold links. fold test. repeat split.
  - intros Hok. by rewrite (filterM_pure _ _ Hok).
  - apply link_without_description_skipped.
  - intros l d Hl Hd Hne Hf.
    assert (is_ok (filterM test links) = false) as Hfail.
    { apply (filterM_not_ok _ _ l Hl). unfold test.
      by rewrite (link_not_a_float env op lo bound l d Hd Hne Hf). }
    by destruct (filterM test links).
  - intros before l after d -> Hbefore Hd Hne Hf.
    rewrite (filterM_Raise_at test before l after ValueError Hbefore); [done|].
    by apply (link_not_a_float env op lo bound l d).
Qed.

Example decimal_float_42_5 :
  decimal_float "42.5" = Some (FFin (425 # 10))
  ∧ decimal_float "abc" = None.
Proof. split; reflexivity. Qed.

(** The example of the specification: description ["42.5"] on a link with
    domain id 7, criterion [(5, 40)] with [greaterThanEqual]. *)
Example value_type_example :
  search_for_value (value_env measured_links) (VList [VInt 5; VInt 40]) at_least
  = Ok [7]
  ∧ search (value_env measured_links) 0 [plain_entity 7 "seven"; entity_A]
      [[("valueTypeID", [at_least])]] = Ok [plain_entity 7 "seven"].
Proof. split; vm_compute; reflexivity. Qed.

(** C6 as stated fails: a description that is present and is not a numeral
    is handed to [float()], and its [ValueError] ends the resolution. *)
Lemma value_resolution_fails_on_text :
  search_for_value (value_env mislabelled_links) (VList [VInt 5; VInt 40])
    at_least = Raise ValueError
  ∧ get_search_parameter (value_env mislabelled_links) 0
      [("valueTypeID", [at_least])] = Raise ValueError
  ∧ ¬ value_resolution_never_fails.
Proof.
  split; [vm_compute; reflexivity|]. split; [vm_compute; reflexivity|].
  intros H.
  specialize (H (value_env mislabelled_links) at_least (VInt 5) 40).
  discriminate H; vm_compute; reflexivity.
Qed.

Lemma value_links_resolved_witness :
  at_least !! "operator" = Some (VStr "greaterThanEqual")
  ∧ at_least !! "logicalOperator" = Some (VStr "or")
  ∧ let env := value_env measured_links in
    let links := get_links env (VInt 5) in
    let test := link_value_matches env (VStr "greaterThanEqual") (VStr "or")
                  (VInt 40) in
    let run := search_for_value env (VList (VInt 5 :: VInt 40 :: [])) at_least in
    (forallb (fun l => is_ok (test l)) links = true →
     run = Ok (link_domain_id <$>
               List.filter (fun l => returns_true (test l)) links))
    ∧ (∀ l, link_description l = None ∨ link_description l = Some EmptyString →
            test l = Ok false)
    ∧ (∀ l d, l ∈ links → link_description l = Some d → d ≠ EmptyString →
              py_float env d = None → is_ok run = false)
    ∧ (∀ before l after d,
         links = before ++ l :: after →
         forallb (fun l' => is_ok (test l')) before = true →
         link_description l = Some d → d ≠ EmptyString → py_float env d = None →
         run = Raise ValueError).
Proof.
  split; [vm_compute; reflexivity|]. split; [vm_compute; reflexivity|].
  apply (value_links_resolved (value_env measured_links) at_least
           (VStr "greaterThanEqual") (VStr "or") (VInt 5) (VInt 40) []);
    vm_compute; reflexivity.
Defined.

(** ** A [valueTypeID] criterion without ['logicalOperator'] *)

Lemma visit_link_skips (env : Env) (parameter : gmap string value)
    (values : value) (ids : list Z) (links : list Link) :
  Forall (fun l => link_description l = None ∨ link_description l = Some EmptyString)
    links →
  foldl (visit_link env parameter values) (Ok ids) links = Ok ids.
Proof.
  induction 1 as [|l links Hl _ IH]; [done|].
  cbn [foldl]. rewrite <- IH at 2. f_equal.
  unfold visit_link. by destruct Hl as [-> | ->].
Qed.

Lemma search_for_value_missing_key (env : Env) (parameter : gmap string value)
    (op t bound : value) (rest : list value)
    (skipped : list Link) (l : Link) (others : list Link)
    (d : string) (f : pyfloat) :
  parameter !! "operator" = Some op →
  parameter !! "logicalOperator" = None →
  get_links env t = skipped ++ l :: others →
  Forall (fun l' => link_description l' = None ∨ link_description l' = Some EmptyString)
    skipped →
  link_description l = Some d → d ≠ EmptyString → py_float env d = Some f →
  search_for_value env (VList (t :: bound :: rest)) parameter
  = Raise (KeyError (VStr "logicalOperator")).
Proof.
  intros Hop Hlo Hlinks Hskipped Hd Hne Hf.
  rewrite search_for_value_unfold, Hlinks, foldl_app.
  rewrite (visit_link_skips _ _ _ _ _ Hskipped). cbn [foldl].
  assert (visit_link env parameter (VList (t :: bound :: rest)) (Ok []) l
          = Raise (KeyError (VStr "logicalOperator"))) as ->.
  { unfold visit_link, dict_get.
    by rewrite Hd, (truthy_VStr _ Hne), Hop, Hf, Hlo. }
  apply visit_link_Raise.
Qed.

Lemma get_search_values_valueTypeID (env : Env) (depth : nat)
    (i : gmap string value) (items : list value) :
  i !! "values" = Some (VList items) →
  get_search_values env depth "valueTypeID" i
  = mapM (fun value => search_for_value env value i) (lower_if_str env <$> items)
    ≫= fun ids => Ok (VInt <$> flatten_list_and_remove_duplicates ids).
Proof.
  intros H. unfold get_search_values, dict_get. by rewrite H.
Qed.

(** Categories without indirection keep the values, lowercased. *)
Lemma get_search_values_plain (env : Env) (depth : nat) (category : string)
    (i : gmap string value) (items : list value) :
  i !! "values" = Some (VList items) →
  category ∉ ["typeIDWithSubs"; "relationToID"; "valueTypeID"] →
  get_search_values env depth category i = Ok (lower_if_str env <$> items).
Proof.
  intros H Hcat. unfold get_search_values, dict_get. rewrite H.
  assert (∀ k, k ∈ ["typeIDWithSubs"; "relationToID"; "valueTypeID"] →
               String.eqb category k = false) as Hk.
  { intros k Hin. apply String.eqb_neq. by intros ->. }
  rewrite !Hk by known_names. done.
Qed.

Lemma mapM_cons_Raise {A B} (f : A → result B) (x : A) (l : list A) (e : exn) :
  f x = Raise e → mapM f (x :: l) = Raise e.
Proof. intros H. cbn [mapM]. by rewrite H. Qed.

(** C10 as stated fails: [float()] is called before ['logicalOperator'] is
    looked up; when the description is not a numeral the error is
    [ValueError]. *)
Lemma missing_combinator_after_float :
  get_search_parameter (value_env mislabelled_links) 0
    [("valueTypeID", [at_least_no_combinator])] = Raise ValueError
  ∧ ¬ missing_combinator_is_key_error.
Proof.
  split; [vm_compute; reflexivity|].
  intros H.
  destruct (H (value_env mislabelled_links) 0%nat at_least_no_combinator
              (VInt 5) (VInt 40) (VStr "greaterThanEqual")
              {| link_description := Some "abc"; link_domain_id := 7 |} "abc")
    as [key Hkey]; try (vm_compute; reflexivity).
  - apply list_elem_of_here.
  - discriminate.
  - vm_compute in Hkey. discriminate Hkey.
Qed.

(** C10, as the code has it: a [valueTypeID] criterion without the key
    ['logicalOperator'] fails with [KeyError('logicalOperator')] as soon as
    the first link with a non-empty description, attached to the link type
    of its first pair, carries a numeral; for another category the same raw
    dict resolves, with the combinator defaulted to ['or']. *)
Theorem missing_combinator_key_error (env : Env) (depth : nat)
    (i : gmap string value) (op t bound : value) (rest pairs : list value)
    (skipped : list Link) (l : Link) (others : list Link)
    (d : string) (f : pyfloat) :
  i !! "values" = Some (VList (VList (t :: bound :: rest) :: pairs)) →
  i !! "operator" = Some op →
  i !! "logicalOperator" = None →
  get_links env t = skipped ++ l :: others →
  Forall (fun l' => link_description l' = None ∨ link_description l' = Some EmptyString)
    skipped →
  link_description l = Some d → d ≠ EmptyString → py_float env d = Some f →
  get_search_parameter env depth [("valueTypeID", [i])]
  = Raise (KeyError (VStr "logicalOperator"))
  ∧ get_search_parameter env depth [("entityID", [i])]
    = Ok (list_to_map
            [("search_values",
              VList (lower_if_str env <$> VList (t :: bound :: rest) :: pairs));
             ("logical_operator", VStr "or"); ("operator", op);
             ("category", VStr "entityID"); ("is_date", VBool false)]).
Proof.
  intros Hvalues Hop Hlo Hlinks Hskipped Hd Hne Hf. split.
  - rewrite get_search_parameter_single. unfold resolve.
    rewrite (get_search_values_valueTypeID _ _ _ _ Hvalues).
    rewrite fmap_cons. cbn [lower_if_str].
    rewrite (mapM_cons_Raise _ _ _ (KeyError (VStr "logicalOperator"))); [done|].
    by apply (search_for_value_missing_key env i op t bound rest skipped l
                others d f).
  - rewrite get_search_parameter_single. unfold resolve.
    rewrite (get_search_values_plain _ _ "entityID" _ _ Hvalues)
      by (by apply (bool_decide_unpack _)).
    unfold dict_get. by rewrite Hop, Hlo.
Qed.

Lemma missing_combinator_key_error_witness :
  let env := value_env measured_links in
  let first := {| link_description := Some "42.5"; link_domain_id := 7 |} in
  at_least_no_combinator !! "values"
  = Some (VList (VList (VInt 5 :: VInt 40 :: []) :: []))
  ∧ at_least_no_combinator !! "operator" = Some (VStr "greaterThanEqual")
  ∧ at_least_no_combinator !! "logicalOperator" = None
  ∧ get_links env (VInt 5) = [] ++ first :: tail measured_links
  ∧ Forall (fun l' => link_description l' = None
                      ∨ link_description l' = Some EmptyString) []
  ∧ link_description first = Some "42.5"
  ∧ "42.5" ≠ EmptyString
  ∧ py_float env "42.5" = Some (FFin (425 # 10))
  ∧ get_search_parameter env 0 [("valueTypeID", [at_least_no_combinator])]
    = Raise (KeyError (VStr "logicalOperator"))
  ∧ get_search_parameter env 0 [("entityID", [at_least_no_combinator])]
    = Ok (list_to_map
            [("search_values",
              VList (lower_if_str env <$> VList (VInt 5 :: VInt 40 :: []) :: []));
             ("logical_operator", VStr "or");
             ("operator", VStr "greaterThanEqual");
             ("category", VStr "entityID"); ("is_date", VBool false)]).
Proof.
  intros env first.
  assert (at_least_no_combinator !! "values"
          = Some (VList (VList (VInt 5 :: VInt 40 :: []) :: []))) as Hvalues
    by (vm_compute; reflexivity).
  assert (at_least_no_combinator !! "operator"
          = Some (VStr "greaterThanEqual")) as Hop
    by (vm_compute; reflexivity).
  assert (at_least_no_combinator !! "logicalOperator" = None) as Hlo
    by (vm_compute; reflexivity).
  assert (get_links env (VInt 5) = [] ++ first :: tail measured_links) as Hlinks
    by reflexivity.
  assert ("42.5" ≠ EmptyString) as Hne by discriminate.
  assert (py_float env "42.5" = Some (FFin (425 # 10))) as Hf
    by (vm_compute; reflexivity).
  do 8 (split; [first [ exact Hvalues | exact Hop | exact Hlo | exact Hlinks
                      | exact Hne | exact Hf | constructor ]|]).
  exact (missing_combinator_key_error env 0 at_least_no_combinator
           (VStr "greaterThanEqual") (VInt 5) (VInt 40) [] []
           [] first (tail measured_links) "42.5" (FFin (425 # 10))
           Hvalues Hop Hlo Hlinks (List.Forall_nil _) eq_refl Hne Hf).
Defined.

(** ** Resolution of [typeIDWithSubs] *)

Lemma descendant_inv (types : gmap Z Type_) (x y : Z) :
  descendant types x y ↔
  ∃ c, sub_type types x c ∧ (c = y ∨ descendant types c y).
Proof.
  split.
  - intros H. destruct H as [x y H | x c y H Hc].
    + exists y. by split; [|left].
    + exists c. by split; [|right].
  - intros (c & Hc & [<- | H]); [by apply tc_once | by eapply tc_l].
Qed.

Section TypeTree.

Context (env : Env) (rank : Z → nat).

(** The type table is a forest: every sub type is in the table and sits at
    a smaller [rank] than its parent. *)
Context (Hforest : ∀ x y, sub_type (g_types env) x y →
                          is_Some (g_types env !! y) ∧ (rank y < rank x)%nat).

Lemma get_sub_ids_S (depth : nat) (x : Z) (t : Type_) (subs : list Z) :
  g_types env !! x = Some t →
  get_sub_ids env (S depth) (VInt x) subs
  = visit_subs env depth (Ok (subs ++ get_all_sub_ids t)) (get_all_sub_ids t).
Proof.
  intros Hx. cbn [get_sub_ids]. unfold g_types_get, dict_key.
  rewrite bind_Ok. cbn [mbind option_bind]. by rewrite Hx.
Qed.

Lemma visit_subs_spec (depth : nat) (cs acc : list Z) :
  (∀ c subs, c ∈ cs →
     ∃ ds, get_sub_ids env depth (VInt c) subs = Ok (subs ++ ds)
           ∧ ∀ y, y ∈ ds ↔ descendant (g_types env) c y) →
  ∃ ds, visit_subs env depth (Ok acc) cs = Ok (acc ++ ds)
        ∧ ∀ y, y ∈ ds ↔ ∃ c, c ∈ cs ∧ descendant (g_types env) c y.
Proof.
  revert acc. induction cs as [|c cs IH]; intros acc Hcs.
  - exists []. split; [by rewrite app_nil_r|].
    intros y. split; [by intros ?%elem_of_nil|].
    by intros (c & ?%elem_of_nil & _).
  - destruct (Hcs c acc (list_elem_of_here _ _)) as (ds1 & Hrun1 & Hds1).
    destruct (IH (acc ++ ds1)) as (ds2 & Hrun2 & Hds2).
    { intros c' subs Hc'. apply Hcs. by apply list_elem_of_further. }
    exists (ds1 ++ ds2). split.
    + unfold visit_subs in *. cbn [foldl]. rewrite bind_Ok, Hrun1, Hrun2.
      by rewrite (assoc_L (++)).
    + intros y. rewrite elem_of_app, Hds1, Hds2. split.
      * intros [H | (c' & Hc' & H)].
        -- exists c. split; [apply list_elem_of_here | done].
        -- exists c'. split; [by apply list_elem_of_further | done].
      * intros (c' & [-> | Hc']%elem_of_cons & H); [by left|].
        right. by exists c'.
Qed.

(** With [depth] above the rank of [x], [get_sub_ids] returns, and what it
    appends are exactly the descendants of [x]. *)
Lemma get_sub_ids_spec (depth : nat) (x : Z) (subs : list Z) :
  is_Some (g_types env !! x) → (rank x < depth)%nat →
  ∃ ds, get_sub_ids env depth (VInt x) subs = Ok (subs ++ ds)
        ∧ ∀ y, y ∈ ds ↔ descendant (g_types env) x y.
Proof.
  revert x subs. induction depth as [|depth IH]; intros x subs [t Ht] Hrank;
    [lia|].
  rewrite (get_sub_ids_S depth x t subs Ht).
  destruct (visit_subs_spec depth (get_all_sub_ids t)
              (subs ++ get_all_sub_ids t)) as (ds & Hrun & Hds).
  { intros c subs' Hc.
    destruct (Hforest x c) as [Hc_in Hc_rank]; [by exists t|].
    apply IH; [done | lia]. }
  exists (get_all_sub_ids t ++ ds). split.
  - by rewrite Hrun, (assoc_L (++)).
  - intros y. rewrite elem_of_app, Hds, descendant_inv. split.
    + intros [Hy | (c & Hc & Hcy)].
      * exists y. split; [by exists t | by left].
      * exists c. split; [by exists t | by right].
    + intros (c & (t' & Ht' & Hc) & Hcy).
      assert (t' = t) as -> by congruence.
      destruct Hcy as [<- | Hcy]; [by left|]. right. by exists c.
Qed.

Lemma mapM_get_sub_ids (depth : nat) (ids : list Z) :
  (∀ x, x ∈ ids → is_Some (g_types env !! x) ∧ (rank x < depth)%nat) →
  ∃ dss, mapM (fun value => get_sub_ids env depth value []) (VInt <$> ids)
         = Ok dss
         ∧ ∀ y, (∃ ds, ds ∈ dss ∧ y ∈ ds)
                ↔ ∃ x, x ∈ ids ∧ descendant (g_types env) x y.
Proof.
  induction ids as [|x ids IH]; intros Hids.
  - exists []. split; [done|]. intros y.
    split; [by intros (ds & ?%elem_of_nil & _)|].
    by intros (x & ?%elem_of_nil & _).
  - destruct (Hids x (list_elem_of_here _ _)) as [Hx Hrank].
    destruct (get_sub_ids_spec depth x [] Hx Hrank) as (ds & Hrun & Hds).
    destruct IH as (dss & Hruns & Hdss).
    { intros x' Hx'. apply Hids. by apply list_elem_of_further. }
    exists (ds :: dss). split.
    + rewrite fmap_cons. cbn [mapM]. by rewrite Hrun, bind_Ok, Hruns.
    + intros y. split.
      * intros (ds' & [-> | Hds']%elem_of_cons & Hy).
        -- exists x. split; [apply list_elem_of_here | by apply Hds].
        -- destruct (proj1 (Hdss y)) as (x' & Hx' & Hxy); [by exists ds'|].
           exists x'. split; [by apply list_elem_of_further | done].
      * intros (x' & [-> | Hx']%elem_of_cons & Hxy).
        -- exists ds. split; [apply list_elem_of_here | by apply Hds].
        -- destruct (proj2 (Hdss y)) as (ds' & Hds' & Hy); [by exists x'|].
           exists ds'. split; [by apply list_elem_of_further | done].
Qed.

End TypeTree.

Lemma lower_if_str_ints (env : Env) (ids : list Z) :
  lower_if_str env <$> (VInt <$> ids) = VInt <$> ids.
Proof. rewrite <- list_fmap_compose. by apply list_fmap_ext. Qed.

(** C7, as the code has it: the search values of a [typeIDWithSubs]
    criterion are the given type ids as given, followed by the transitive
    descendants of the given ids without duplicates among them; as a set,
    the given ids and all their descendants.  The whole list is free of
    duplicates when the given ids are distinct and none of them is a
    descendant of a given id.  [depth] has to exceed the height of the
    given types in the forest. *)
Theorem type_with_subs_resolved (env : Env) (rank : Z → nat) (depth : nat)
    (i : gmap string value) (ids : list Z) :
  (∀ x y, sub_type (g_types env) x y →
          is_Some (g_types env !! y) ∧ (rank y < rank x)%nat) →
  i !! "values" = Some (VList (VInt <$> ids)) →
  (∀ x, x ∈ ids → is_Some (g_types env !! x) ∧ (rank x < depth)%nat) →
  ∃ ds : list Z,
    get_search_values env depth "typeIDWithSubs" i = Ok (VInt <$> (ids ++ ds))
    ∧ NoDup ds
    ∧ (∀ y, y ∈ ds ↔ ∃ x, x ∈ ids ∧ descendant (g_types env) x y)
    ∧ (NoDup ids →
       (∀ x y, x ∈ ids → y ∈ ids → ¬ descendant (g_types env) x y) →
       NoDup (ids ++ ds)).
Proof.
  intros Hforest Hvalues Hids.
  destruct (mapM_get_sub_ids env rank Hforest depth ids Hids)
    as (dss & Hruns & Hdss).
  exists (flatten_list_and_remove_duplicates dss).
  assert (∀ y, y ∈ flatten_list_and_remove_duplicates dss
               ↔ ∃ x, x ∈ ids ∧ descendant (g_types env) x y) as Hds.
  { intros y. by rewrite elem_of_flatten, Hdss. }
  split; [|split; [apply NoDup_flatten | split; [exact Hds|]]].
  - unfold get_search_values, dict_get.
    rewrite Hvalues, bind_Ok. cbn [py_iter]. rewrite bind_Ok.
    rewrite lower_if_str_ints.
    change (String.eqb "typeIDWithSubs" "typeIDWithSubs") with true.
    change (String.eqb "typeIDWithSubs" "relationToID") with false.
    change (String.eqb "typeIDWithSubs" "valueTypeID") with false.
    cbv iota. rewrite Hruns, !bind_Ok. by rewrite fmap_app.
  - intros Hnodup Hfree. apply NoDup_app.
    split; [done|]. split; [|apply NoDup_flatten].
    intros y Hy (x & Hx & Hxy)%Hds. by apply (Hfree x y).
Qed.

Lemma tree_env_forest (x y : Z) :
  sub_type (g_types tree_env) x y →
  is_Some (g_types tree_env !! y) ∧ (tree_rank y < tree_rank x)%nat.
Proof.
  intros (t & Ht & Hy). apply elem_of_list_to_map_2 in Ht.
  repeat (apply elem_of_cons in Ht as [[= -> ->] | Ht]);
    try (by apply elem_of_nil in Ht);
    cbn [get_all_sub_ids node type_subs] in Hy;
    repeat (apply elem_of_cons in Hy as [-> | Hy]);
    try (by apply elem_of_nil in Hy);
    (split; [by eexists; vm_compute | vm_compute; lia]).
Qed.

Example type_with_subs_root :
  get_search_values tree_env 3 "typeIDWithSubs" (with_subs [1])
  = Ok (VInt <$> [1; 2; 3; 4])
  ∧ NoDup [1; 2; 3; 4].
Proof.
  split; [vm_compute; reflexivity|]. by apply (bool_decide_unpack _).
Qed.

(** C7 as stated fails: only the appended descendants are de-duplicated; a
    given id that is also a descendant of a given id comes out twice. *)
Lemma given_sub_type_listed_twice :
  get_search_values tree_env 3 "typeIDWithSubs" (with_subs [1; 2])
  = Ok [VInt 1; VInt 2; VInt 2; VInt 3; VInt 4]
  ∧ ¬ subs_resolved_without_duplicates.
Proof.
  assert (get_search_values tree_env 3 "typeIDWithSubs" (with_subs [1; 2])
          = Ok [VInt 1; VInt 2; VInt 2; VInt 3; VInt 4]) as Hrun
    by (vm_compute; reflexivity).
  split; [exact Hrun|].
  intros H. specialize (H _ _ _ _ Hrun).
  apply NoDup_cons in H as [_ H]. apply NoDup_cons in H as [H _].
  apply H, list_elem_of_here.
Qed.

Lemma type_with_subs_resolved_witness :
  (∀ x y, sub_type (g_types tree_env) x y →
          is_Some (g_types tree_env !! y) ∧ (tree_rank y < tree_rank x)%nat)
  ∧ with_subs [1] !! "values" = Some (VList (VInt <$> [1]))
  ∧ (∀ x, x ∈ [1] →
          is_Some (g_types tree_env !! x) ∧ (tree_rank x < 3)%nat)
  ∧ ∃ ds : list Z,
      get_search_values tree_env 3 "typeIDWithSubs" (with_subs [1])
      = Ok (VInt <$> ([1] ++ ds))
      ∧ NoDup ds
      ∧ (∀ y, y ∈ ds ↔ ∃ x, x ∈ [1] ∧ descendant (g_types tree_env) x y)
      ∧ (NoDup [1] →
         (∀ x y, x ∈ [1] → y ∈ [1] → ¬ descendant (g_types tree_env) x y) →
         NoDup ([1] ++ ds)).
Proof.
  assert (with_subs [1] !! "values" = Some (VList (VInt <$> [1]))) as Hvalues
    by (vm_compute; reflexivity).
  assert (∀ x, x ∈ [1] →
               is_Some (g_types tree_env !! x) ∧ (tree_rank x < 3)%nat) as Hids.
  { intros x ->%list_elem_of_singleton.
    split; [by eexists; vm_compute | vm_compute; lia]. }
  split; [exact tree_env_forest|]. split; [exact Hvalues|].
  split; [exact Hids|].
  exact (type_with_subs_resolved tree_env tree_rank 3 (with_subs [1]) [1]
           tree_env_forest Hvalues Hids).
Defined.

(** * Further properties *)

(** ** The truth table of the evaluator *)

Lemma guard_on_list (es : list value) (op : value) (cmp : bool) :
  str_is op "like" = false →
  negb (truthy (VList es)) && (str_is op "like" || cmp)
  = no_values_to_compare es cmp.
Proof. intros ->. by destruct es. Qed.

Lemma py_any_member (es svs : list value) :
  py_any (fun item => py_in item (VList es)) svs
  = Ok (existsb (member_of es) svs).
Proof. by apply py_any_pure. Qed.

Lemma py_all_member (es svs : list value) :
  py_all (fun item => py_in item (VList es)) svs
  = Ok (forallb (member_of es) svs).
Proof. by apply py_all_pure. Qed.

(** X1: on a list of entity values, [equal] with [or] is [True] iff some
    search value equals some entity value, and with [and] iff every search
    value does (so an empty list of search values matches under [and] and
    not under [or]); with no entity values on a date-comparable criterion
    the answer is [False] in both modes. *)
Theorem equal_is_membership (es svs : list value) (cmp : bool) :
  search_entity (VList es) (VStr "equal") svs (VStr "or") cmp
  = Ok (if no_values_to_compare es cmp then false
        else existsb (member_of es) svs)
  ∧ search_entity (VList es) (VStr "equal") svs (VStr "and") cmp
    = Ok (if no_values_to_compare es cmp then false
          else forallb (member_of es) svs).
Proof.
  unfold search_entity. rewrite guard_on_list by done.
  destruct (no_values_to_compare es cmp); [done|].
  cbn [str_is py_eqb String.eqb Ascii.eqb Bool.eqb by_logical_operator
       first_return default andb].
  by rewrite py_any_member, py_all_member.
Qed.

(** X2: [notEqual] is the complement of [equal] on the same arguments,
    exceptions included, except under the guard: with no entity values on a
    date-comparable criterion both answer [False]. *)
Theorem notEqual_complements_equal (ev : value) (svs : list value)
    (lo : value) (cmp : bool) :
  search_entity ev (VStr "notEqual") svs lo cmp
  = if negb (truthy ev) && cmp then Ok false
    else py_not (search_entity ev (VStr "equal") svs lo cmp).
Proof.
  unfold search_entity.
  change (str_is (VStr "notEqual") "like") with false.
  change (str_is (VStr "equal") "like") with false.
  rewrite orb_false_l.
  destruct (negb (truthy ev) && cmp); [done|].
  cbn [str_is py_eqb String.eqb Ascii.eqb Bool.eqb first_return default andb].
  unfold by_logical_operator.
  destruct (str_is lo "or"); [done|]. by destruct (str_is lo "and").
Qed.

(** X3: a combinator that is neither ['or'] nor ['and'] leaves every
    operator block without a [return]: the evaluator raises
    [WrongOperatorError] for every operator, unless the guard has answered
    [False] first. *)
Theorem unknown_combinator_raises (ev op : value) (svs : list value)
    (lo : value) (cmp : bool) :
  str_is lo "or" = false → str_is lo "and" = false →
  search_entity ev op svs lo cmp
  = if negb (truthy ev) && (str_is op "like" || cmp) then Ok false
    else Raise WrongOperatorError.
Proof.
  intros Hor Hand. unfold search_entity, by_logical_operator.
  rewrite Hor, Hand.
  destruct (negb (truthy ev) && (str_is op "like" || cmp)); [done|].
  by repeat match goal with |- context [if ?b then None else None] =>
              destruct b end.
Qed.

Lemma unknown_combinator_raises_witness :
  str_is (VStr "xor") "or" = false
  ∧ str_is (VStr "xor") "and" = false
  ∧ search_entity (VList [VInt 1]) (VStr "equal") [VInt 1] (VStr "xor") false
    = Raise WrongOperatorError.
Proof.
  split; [reflexivity|]. split; [reflexivity|].
  apply (unknown_combinator_raises (VList [VInt 1]) (VStr "equal") [VInt 1]
           (VStr "xor") false); reflexivity.
Defined.

(** ** Ordering operators on dates *)

Lemma date_leb_not_ltb (a b : date) : date_leb a b = negb (date_ltb b a).
Proof.
  unfold date_leb, date_ltb, date_eqb. destruct a as [y m d], b as [y' m' d'].
  simpl.
  destruct (Z.ltb_spec y y'), (Z.ltb_spec y' y), (Z.eqb_spec y y'),
    (Z.eqb_spec y' y), (Z.ltb_spec m m'), (Z.ltb_spec m' m),
    (Z.eqb_spec m m'), (Z.eqb_spec m' m), (Z.ltb_spec d d'),
    (Z.ltb_spec d' d), (Z.eqb_spec d d'); simpl; try reflexivity; lia.
Qed.

Lemma py_any_dates (test : date → bool) (f : value → result bool)
    (ss : list date) :
  (∀ s, f (VDate s) = Ok (test s)) →
  py_any f (VDate <$> ss) = Ok (existsb test ss).
Proof.
  intros Hf. induction ss as [|s ss IH]; [done|].
  rewrite fmap_cons. cbn [py_any existsb]. rewrite Hf, bind_Ok.
  by destruct (test s).
Qed.

Lemma py_all_dates (test : date → bool) (f : value → result bool)
    (ss : list date) :
  (∀ s, f (VDate s) = Ok (test s)) →
  py_all f (VDate <$> ss) = Ok (forallb test ss).
Proof.
  intros Hf. induction ss as [|s ss IH]; [done|].
  rewrite fmap_cons. cbn [py_all forallb]. rewrite Hf, bind_Ok.
  by destruct (test s).
Qed.

(** X4: on a date-comparable criterion with an entity date [e] other than
    1970-01-01 and search dates [ss], each ordering operator compares every
    search date with the entity date: [greaterThan] is [s < e],
    [greaterThanEqual] is [s <= e], [lesserThan] is [e < s],
    [lesserThanEqual] is [e <= s]; [or] asks for one search date, [and]
    for all of them.  The entity date 1970-01-01 is false as a truth value,
    so the guard takes it for a missing value and every case answers
    [False]. *)
Theorem ordering_on_dates (e : date) (ss : list date) :
  let run op lo := search_entity (VDate e) (VStr op) (VDate <$> ss) (VStr lo)
                     true in
  let present := negb (date_eqb e epoch) in
  run "greaterThan" "or"
  = Ok (present && existsb (fun s => date_ltb s e) ss)
  ∧ run "greaterThan" "and"
    = Ok (present && forallb (fun s => date_ltb s e) ss)
  ∧ run "greaterThanEqual" "or"
    = Ok (present && existsb (fun s => date_leb s e) ss)
  ∧ run "greaterThanEqual" "and"
    = Ok (present && forallb (fun s => date_leb s e) ss)
  ∧ run "lesserThan" "or"
    = Ok (present && existsb (fun s => date_ltb e s) ss)
  ∧ run "lesserThan" "and"
    = Ok (present && forallb (fun s => date_ltb e s) ss)
  ∧ run "lesserThanEqual" "or"
    = Ok (present && existsb (fun s => date_leb e s) ss)
  ∧ run "lesserThanEqual" "and"
    = Ok (present && forallb (fun s => date_leb e s) ss).
Proof.
  cbv zeta. unfold search_entity. cbn [truthy].
  destruct (date_eqb e epoch);
    cbn [negb andb orb str_is py_eqb String.eqb Ascii.eqb Bool.eqb
         by_logical_operator first_return default as_number];
    [by repeat split|].
  repeat split;
    (apply py_any_dates || apply py_all_dates); by intros s.
Qed.

Lemma existsb_negb_forallb {A} (f : A → bool) (l : list A) :
  existsb f l = negb (forallb (fun x => negb (f x)) l).
Proof.
  induction l as [|x l IH]; [done|]. simpl. rewrite IH. by destruct (f x).
Qed.

Lemma forallb_pointwise {A} (f g : A → bool) (l : list A) :
  (∀ x, f x = g x) → forallb f l = forallb g l.
Proof. intros H. induction l as [|x l IH]; [done|]. simpl. by rewrite H, IH. Qed.

(** X5: on an entity date other than 1970-01-01 the ordering operators
    are complements of each other across the combinators: [greaterThan]
    with [or] holds exactly when [lesserThanEqual] with [and] does not,
    and [greaterThanEqual] with [or] exactly when [lesserThan] with [and]
    does not.  On the entity date 1970-01-01 the guard answers [False] to
    every operator, so there the two [or] cases are [False] as well. *)
Theorem ordering_duality_on_dates (e : date) (ss : list date) :
  let run op lo := search_entity (VDate e) (VStr op) (VDate <$> ss) (VStr lo)
                     true in
  run "greaterThan" "or"
  = (if date_eqb e epoch then Ok false
     else py_not (run "lesserThanEqual" "and"))
  ∧ run "greaterThanEqual" "or"
    = (if date_eqb e epoch then Ok false
       else py_not (run "lesserThan" "and")).
Proof.
  cbv zeta. unfold search_entity. cbn [truthy].
  destruct (date_eqb e epoch);
    cbn [negb andb orb str_is py_eqb String.eqb Ascii.eqb Bool.eqb
         by_logical_operator first_return default as_number];
    [by repeat split|].
  rewrite (py_any_dates (fun s => date_ltb s e)) by done.
  rewrite (py_any_dates (fun s => date_leb s e)) by done.
  rewrite (py_all_dates (fun s => date_leb e s)) by done.
  rewrite (py_all_dates (fun s => date_ltb e s)) by done.
  unfold py_not, id. rewrite !bind_Ok.
  split; f_equal; rewrite existsb_negb_forallb; f_equal;
    apply forallb_pointwise; intros s.
  - by rewrite date_leb_not_ltb.
  - by rewrite date_leb_not_ltb, negb_involutive.
Qed.

(** ** [like] on search values that are not strings *)

(** X6: [like] asks Python whether the search value is [in] a string; a
    search value that is not a string (a number, say) at the head of the
    list makes both modes raise [TypeError] when there are entity strings
    to look into. *)
Theorem like_rejects_non_strings (es : list string) (v : value)
    (rest : list value) (cmp : bool) :
  es ≠ [] → is_str v = false →
  search_entity (VList (VStr <$> es)) (VStr "like") (v :: rest) (VStr "or") cmp
  = Raise TypeError
  ∧ search_entity (VList (VStr <$> es)) (VStr "like") (v :: rest) (VStr "and")
      cmp = Raise TypeError.
Proof.
  intros Hes Hv. unfold search_entity.
  rewrite (truthy_nonempty_strs _ Hes).
  cbn [negb andb str_is py_eqb String.eqb Ascii.eqb Bool.eqb
       by_logical_operator first_return default py_any py_all].
  unfold id. rewrite py_join_strs, bind_Ok. unfold py_iter. rewrite bind_Ok.
  destruct es as [|e es]; [done|]. rewrite fmap_cons. cbn [py_any].
  by destruct v.
Qed.

Lemma like_rejects_non_strings_witness :
  ["san francisco"] ≠ [] ∧ is_str (VInt 7) = false
  ∧ search_entity (VList (VStr <$> ["san francisco"])) (VStr "like")
      (VInt 7 :: [VStr "san"]) (VStr "or") false = Raise TypeError
  ∧ search_entity (VList (VStr <$> ["san francisco"])) (VStr "like")
      (VInt 7 :: [VStr "san"]) (VStr "and") false = Raise TypeError.
Proof.
  split; [discriminate|]. split; [reflexivity|].
  apply (like_rejects_non_strings ["san francisco"] (VInt 7) [VStr "san"]
           false); [discriminate | reflexivity].
Defined.

(** ** Resolution and evaluation of the plain categories *)

Lemma resolve_plain (env : Env) (depth : nat) (category : string)
    (i : gmap string value) (items : list value) (op : value) :
  category ∉ ["typeIDWithSubs"; "relationToID"; "valueTypeID"] →
  i !! "values" = Some (VList items) →
  i !! "operator" = Some op →
  get_search_parameter env depth [(category, [i])]
  = Ok (resolved (lower_if_str env <$> items) (combinator_of i) op category
          (check_if_date_search category)).
Proof.
  intros Hcat Hvalues Hop. rewrite get_search_parameter_single.
  unfold resolve. rewrite (get_search_values_plain _ _ _ _ _ Hvalues Hcat).
  assert (String.eqb category "valueTypeID" = false) as ->.
  { apply String.eqb_neq. intros ->. apply Hcat. known_names. }
  unfold dict_get. by rewrite Hop.
Qed.

Lemma search_result_of_resolved (env : Env) (entity : Entity)
    (svs : list value)
    (lo op : value) (category : string) (is_date : bool) :
  search_result env entity (resolved svs lo op category is_date)
  = search_entity (value_to_be_searched env entity (VStr category)) op svs lo
      is_date.
Proof. apply search_result_resolved. Qed.

Lemma value_to_be_searched_unknown (env : Env) (entity : Entity)
    (c : string) :
  c ∉ categories → value_to_be_searched env entity (VStr c) = VList [].
Proof.
  intros Hc.
  assert (∀ k, k ∈ categories → str_is (VStr c) k = false) as Hk.
  { intros k Hin. rewrite str_is_VStr. apply String.eqb_neq. by intros ->. }
  unfold value_to_be_searched. cbn [existsb].
  rewrite !Hk by (unfold categories; known_names). done.
Qed.

Lemma not_a_date_category (c : string) :
  c ∉ categories → check_if_date_search c = false.
Proof.
  intros Hc. unfold check_if_date_search. apply bool_decide_eq_false.
  intros Hin. apply Hc. unfold categories.
  repeat (apply elem_of_cons in Hin as [-> | Hin]; [known_names|]).
  by apply elem_of_nil in Hin.
Qed.

Lemma nothing_in_empty (svs : list value) : existsb (member_of []) svs = false.
Proof. by induction svs. Qed.

(** X7: a category name [value_to_be_searched] has no branch for resolves
    like any plain category and extracts no value from any entity; the
    criterion is then evaluated on the empty list, so with [notEqual] and
    [or] it matches every entity and with [equal] and [or], or with [like],
    it matches none. *)
Theorem unknown_category_extracts_nothing (env : Env) (depth : nat)
    (c : string) (i : gmap string value) (items : list value) (op : value) :
  c ∉ categories →
  i !! "values" = Some (VList items) →
  i !! "operator" = Some op →
  ∃ p, get_search_parameter env depth [(c, [i])] = Ok p
       ∧ (∀ entity,
            search_result env entity p
            = search_entity (VList []) op (lower_if_str env <$> items)
                (combinator_of i) false)
       ∧ (∀ svs, search_entity (VList []) (VStr "notEqual") svs (VStr "or")
                   false = Ok true)
       ∧ (∀ svs, search_entity (VList []) (VStr "equal") svs (VStr "or")
                   false = Ok false)
       ∧ (∀ svs lo, search_entity (VList []) (VStr "like") svs lo false
                    = Ok false).
Proof.
  intros Hc Hvalues Hop. eexists. split.
  - apply resolve_plain; [|done|done].
    intros Hin. apply Hc. unfold categories.
    repeat (apply elem_of_cons in Hin as [-> | Hin]; [known_names|]).
    by apply elem_of_nil in Hin.
  - split.
    { intros entity. rewrite search_result_of_resolved.
      by rewrite value_to_be_searched_unknown, not_a_date_category. }
    split; [|split; [|done]]; intros svs; unfold search_entity;
      cbn [truthy negb andb orb str_is py_eqb String.eqb Ascii.eqb Bool.eqb
           by_logical_operator first_return default];
      unfold id, py_not; by rewrite py_any_member, nothing_in_empty.
Qed.

Lemma unknown_category_extracts_nothing_witness :
  ("entityColour" ∉ categories)
  ∧ equal_1 !! "values" = Some (VList [VInt 1])
  ∧ equal_1 !! "operator" = Some (VStr "equal")
  ∧ ∃ p, get_search_parameter empty_env 0 [("entityColour", [equal_1])] = Ok p
         ∧ (∀ entity,
              search_result empty_env entity p
              = search_entity (VList []) (VStr "equal")
                  (lower_if_str empty_env <$> [VInt 1]) (combinator_of equal_1) false)
         ∧ (∀ svs, search_entity (VList []) (VStr "notEqual") svs (VStr "or")
                     false = Ok true)
         ∧ (∀ svs, search_entity (VList []) (VStr "equal") svs (VStr "or")
                     false = Ok false)
         ∧ (∀ svs lo, search_entity (VList []) (VStr "like") svs lo false
                      = Ok false).
Proof.
  assert ("entityColour" ∉ categories) as Hc
    by (by apply (bool_decide_unpack _)).
  split; [exact Hc|].
  split; [vm_compute; reflexivity|]. split; [vm_compute; reflexivity|].
  apply (unknown_category_extracts_nothing empty_env 0 "entityColour" equal_1
           [VInt 1] (VStr "equal") Hc); vm_compute; reflexivity.
Defined.

(** ** Names and ids *)

(** X8: an [entityName] criterion with [equal] and one string value
    passes the value and the entity name through [str.lower()] and
    compares the results, so the match ignores the case of both: entities
    whose names agree once lowercased are matched alike. *)
Theorem entity_name_equal_ignores_case (env : Env) (depth : nat)
    (i : gmap string value) (v : string) :
  i !! "values" = Some (VList [VStr v]) →
  i !! "operator" = Some (VStr "equal") →
  combinator_of i = VStr "or" ∨ combinator_of i = VStr "and" →
  ∃ p, get_search_parameter env depth [("entityName", [i])] = Ok p
       ∧ (∀ entity,
            search_result env entity p
            = Ok (String.eqb (py_lower env v)
                    (py_lower env (entity_name entity))))
       ∧ (∀ entity entity',
            py_lower env (entity_name entity)
            = py_lower env (entity_name entity') →
            search_result env entity p = search_result env entity' p).
Proof.
  intros Hvalues Hop Hlo.
  assert (∀ entity,
            search_result env entity
              (resolved (lower_if_str env <$> [VStr v]) (combinator_of i)
                 (VStr "equal") "entityName"
                 (check_if_date_search "entityName"))
            = Ok (String.eqb (py_lower env v)
                    (py_lower env (entity_name entity)))) as Hall.
  { intros entity. rewrite search_result_of_resolved.
    unfold search_entity, value_to_be_searched.
    cbn [existsb str_is py_eqb String.eqb Ascii.eqb Bool.eqb orb truthy negb
         andb fmap list_fmap lower_if_str].
    destruct Hlo as [-> | ->];
      cbn [str_is py_eqb String.eqb Ascii.eqb Bool.eqb by_logical_operator
           first_return default py_any py_all py_in existsb];
      unfold id; rewrite bind_Ok;
      by destruct (String.eqb (py_lower env v)
                     (py_lower env (entity_name entity))). }
  eexists. split; [|split].
  - apply resolve_plain; [by apply (bool_decide_unpack _) | done | done].
  - exact Hall.
  - intros entity entity' Hsame. by rewrite !Hall, Hsame.
Qed.

Lemma entity_name_equal_ignores_case_witness :
  let i : gmap string value :=
    {[ "operator" := VStr "equal"; "values" := VList [VStr "ALPHA"] ]} in
  i !! "values" = Some (VList [VStr "ALPHA"])
  ∧ i !! "operator" = Some (VStr "equal")
  ∧ (combinator_of i = VStr "or" ∨ combinator_of i = VStr "and")
  ∧ ∃ p, get_search_parameter empty_env 0 [("entityName", [i])] = Ok p
         ∧ search_result empty_env entity_A p = Ok true
         ∧ search_result empty_env entity_B p = Ok false
         ∧ search_result empty_env (plain_entity 4 "aLpHa") p
           = search_result empty_env entity_A p.
Proof.
  intros i.
  assert (i !! "values" = Some (VList [VStr "ALPHA"])) as Hvalues
    by (vm_compute; reflexivity).
  assert (i !! "operator" = Some (VStr "equal")) as Hop
    by (vm_compute; reflexivity).
  assert (combinator_of i = VStr "or" ∨ combinator_of i = VStr "and") as Hlo
    by (left; vm_compute; reflexivity).
  split; [exact Hvalues|]. split; [exact Hop|]. split; [exact Hlo|].
  destruct (entity_name_equal_ignores_case empty_env 0 i "ALPHA"
              Hvalues Hop Hlo) as (p & Hp & Hall & Hsame).
  exists p. split; [exact Hp|].
  split; [by rewrite Hall|]. split; [by rewrite Hall|].
  apply Hsame. reflexivity.
Defined.

Example alpha_found_in_any_case :
  search empty_env 0 [entity_A; entity_B]
    [[("entityName",
       [ {[ "operator" := VStr "equal"; "values" := VList [VStr "ALPHA"] ]} ])]]
  = Ok [entity_A].
Proof. vm_compute. reflexivity. Qed.

Lemma py_eqb_ints (a b : Z) : py_eqb (VInt a) (VInt b) = (a =? b).
Proof.
  simpl. unfold Qeq_bool. simpl. by rewrite !Z.mul_1_r.
Qed.

Lemma filterM_decided {A} (f : A → result bool) (g : A → bool) (l : list A) :
  (∀ x, x ∈ l → f x = Ok (g x)) → filterM f l = Ok (List.filter g l).
Proof.
  induction l as [|x l IH]; intros H; [done|].
  cbn [filterM List.filter]. rewrite (H x) by apply list_elem_of_here.
  rewrite bind_Ok, IH, bind_Ok; [done|].
  intros y Hy. apply H. by apply list_elem_of_further.
Qed.

(** A search with one parser dict, once it is resolved and every entity
    evaluated. *)
Lemma search_one_criterion (env : Env) (depth : nat) (entities : list Entity)
    (parser : list (string * list (gmap string value)))
    (p : gmap string value) (keep : Entity → bool) :
  get_search_parameter env depth parser = Ok p →
  (∀ e, e ∈ entities → search_result env e p = Ok (keep e)) →
  search env depth entities [parser] = Ok (List.filter keep entities).
Proof.
  intros Hp Hkeep. unfold search. cbn [mapM]. rewrite Hp, !bind_Ok.
  unfold mret, result_ret. apply filterM_decided.
  intros e He. unfold iterate_through_entities. cbn [filterM].
  rewrite (Hkeep e He), !bind_Ok. by destruct (keep e).
Qed.

(** X9: a search with one [entityID] criterion, operator [equal] and the
    default combinator returns, in order, exactly the entities whose id is
    among the given ids. *)
Theorem entity_id_search_selects_ids (env : Env) (depth : nat)
    (i : gmap string value) (ids : list Z) (entities : list Entity) :
  i !! "values" = Some (VList (VInt <$> ids)) →
  i !! "operator" = Some (VStr "equal") →
  i !! "logicalOperator" = None →
  search env depth entities [[("entityID", [i])]]
  = Ok (List.filter (fun e => bool_decide (entity_id e ∈ ids)) entities).
Proof.
  intros Hvalues Hop Hlo.
  eapply search_one_criterion.
  - apply resolve_plain; [by apply (bool_decide_unpack _) | done | done].
  - intros e _. rewrite search_result_of_resolved.
    unfold combinator_of. rewrite Hlo.
    rewrite lower_if_str_ints.
    unfold search_entity, value_to_be_searched.
    cbn [existsb str_is py_eqb String.eqb Ascii.eqb Bool.eqb orb truthy negb
         andb by_logical_operator first_return default].
    unfold id. rewrite py_any_member. f_equal.
    clear Hvalues. induction ids as [|y ids IH]; [done|].
    rewrite fmap_cons. cbn [existsb]. rewrite IH.
    unfold member_of at 1. cbn [existsb]. rewrite py_eqb_ints, orb_false_r.
    destruct (Z.eqb_spec y (entity_id e)) as [<-|Hne]; simpl.
    + symmetry. apply bool_decide_eq_true. apply list_elem_of_here.
    + apply bool_decide_ext. rewrite elem_of_cons.
      split; [by right | intros [? | ?]; [congruence | done]].
Qed.

Lemma entity_id_search_selects_ids_witness :
  equal_2 !! "values" = Some (VList (VInt <$> [2]))
  ∧ equal_2 !! "operator" = Some (VStr "equal")
  ∧ equal_2 !! "logicalOperator" = None
  ∧ search empty_env 0 [entity_A; entity_B; entity_C] [[("entityID", [equal_2])]]
    = Ok (List.filter (fun e => bool_decide (entity_id e ∈ [2]))
            [entity_A; entity_B; entity_C]).
Proof.
  split; [vm_compute; reflexivity|]. split; [vm_compute; reflexivity|].
  split; [vm_compute; reflexivity|].
  apply (entity_id_search_selects_ids empty_env 0 equal_2 [2]
           [entity_A; entity_B; entity_C]); vm_compute; reflexivity.
Defined.

(** ** Edge cases of [search] *)

Lemma filterM_none {A} (l : list A) :
  filterM (fun _ : A => Ok false) l = Ok [].
Proof. induction l as [|x l IH]; [done|]. cbn [filterM]. by rewrite IH. Qed.

(** X10: with no parser dict [search] returns no entity, whatever the
    entities are; a parser dict with no criterion in it resolves to the
    empty dict, and the first entity evaluated against it raises
    [KeyError('category')]. *)
Theorem search_without_criteria (env : Env) (depth : nat)
    (e : Entity) (entities : list Entity) (category : string) :
  search env depth entities [] = Ok []
  ∧ get_search_parameter env depth [] = Ok ∅
  ∧ get_search_parameter env depth [(category, [])] = Ok ∅
  ∧ search env depth (e :: entities) [[]] = Raise (KeyError (VStr "category"))
  ∧ search env depth (e :: entities) [[(category, [])]]
    = Raise (KeyError (VStr "category")).
Proof.
  split; [|split; [done|split; [done|]]].
  - unfold search. cbn [mapM]. unfold mret, result_ret.
    rewrite bind_Ok. unfold iterate_through_entities. cbn [filterM].
    change (fun e : Entity => Ok [] ≫= _) with (fun _ : Entity => Ok false).
    apply filterM_none.
  - assert (∀ parser, get_search_parameter env depth parser = Ok ∅ →
              search env depth (e :: entities) [parser]
              = Raise (KeyError (VStr "category"))) as Hempty.
    { intros parser Hparser. unfold search. cbn [mapM].
      rewrite Hparser, !bind_Ok. unfold mret, result_ret.
      cbn [filterM]. unfold iterate_through_entities at 1. cbn [filterM].
      unfold search_result at 1, dict_get. by rewrite lookup_empty. }
    split; by apply Hempty.
Qed.

(** ** Raw criteria with a key missing *)

(** X11: a raw criterion without ['values'] fails with
    [KeyError('values')] in every category; one with its values but without
    ['operator'] fails with [KeyError('operator')] in every category that
    keeps its values as they are; and [search] fails with that error
    whatever the entities and the later parser dicts are. *)
Theorem raw_criterion_key_errors (env : Env) (depth : nat)
    (category : string) (i : gmap string value) (items : list value)
    (key : string) (entities : list Entity)
    (rest : list (list (string * list (gmap string value)))) :
  (i !! "values" = None ∧ key = "values")
  ∨ (i !! "values" = Some (VList items) ∧ i !! "operator" = None
     ∧ (category ∉ ["typeIDWithSubs"; "relationToID"; "valueTypeID"])
     ∧ key = "operator") →
  get_search_parameter env depth [(category, [i])] = Raise (KeyError (VStr key))
  ∧ search env depth entities ([(category, [i])] :: rest)
    = Raise (KeyError (VStr key)).
Proof.
  intros H.
  assert (get_search_parameter env depth [(category, [i])]
          = Raise (KeyError (VStr key))) as Hraise.
  { rewrite get_search_parameter_single.
    destruct H as [[Hvalues ->] | (Hvalues & Hop & Hcat & ->)].
    - unfold resolve, get_search_values, dict_get. by rewrite Hvalues.
    - unfold resolve. rewrite (get_search_values_plain _ _ _ _ _ Hvalues Hcat).
      assert (String.eqb category "valueTypeID" = false) as ->.
      { apply String.eqb_neq. intros ->. apply Hcat. known_names. }
      unfold dict_get. by rewrite Hop. }
  split; [done|]. unfold search. by rewrite (mapM_cons_Raise _ _ _ _ Hraise).
Qed.

Lemma raw_criterion_key_errors_witness :
  let i : gmap string value := {[ "values" := VList [VInt 1] ]} in
  ((i !! "values" = None ∧ "operator" = "values")
   ∨ (i !! "values" = Some (VList [VInt 1]) ∧ i !! "operator" = None
      ∧ ("entityID" ∉ ["typeIDWithSubs"; "relationToID"; "valueTypeID"])
      ∧ "operator" = "operator"))
  ∧ get_search_parameter empty_env 0 [("entityID", [i])]
    = Raise (KeyError (VStr "operator"))
  ∧ search empty_env 0 [entity_A] ([("entityID", [i])] :: [by_id_2])
    = Raise (KeyError (VStr "operator")).
Proof.
  intros i.
  assert ((i !! "values" = None ∧ "operator" = "values")
          ∨ (i !! "values" = Some (VList [VInt 1]) ∧ i !! "operator" = None
             ∧ ("entityID" ∉ ["typeIDWithSubs"; "relationToID"; "valueTypeID"])
             ∧ "operator" = "operator")) as H.
  { right. split; [vm_compute; reflexivity|]. split; [vm_compute; reflexivity|].
    split; [by apply (bool_decide_unpack _) | reflexivity]. }
  split; [exact H|].
  exact (raw_criterion_key_errors empty_env 0 "entityID" i [VInt 1] "operator"
           [entity_A] [by_id_2] H).
Defined.

(** ** Entities are judged one by one *)

Lemma filterM_app {A} (f : A → result bool) (l1 l2 r1 r2 : list A) :
  filterM f l1 = Ok r1 → filterM f l2 = Ok r2 →
  filterM f (l1 ++ l2) = Ok (r1 ++ r2).
Proof.
  revert r1. induction l1 as [|x l1 IH]; intros r1 H1 H2.
  - by injection H1 as <-.
  - cbn [filterM app] in *. destruct (f x) as [b|e]; [|done].
    rewrite bind_Ok in *.
    destruct (filterM f l1) as [r|e]; [|done]. rewrite bind_Ok in H1.
    injection H1 as <-. rewrite (IH r eq_refl H2), bind_Ok. by destruct b.
Qed.

Lemma filterM_again {A} (f : A → result bool) (l r : list A) :
  filterM f l = Ok r → filterM f r = Ok r.
Proof.
  revert r. induction l as [|x l IH]; intros r H.
  - by injection H as <-.
  - cbn [filterM] in H. destruct (f x) as [b|e] eqn:Hx; [|done].
    rewrite bind_Ok in H.
    destruct (filterM f l) as [r'|e]; [|done]. rewrite bind_Ok in H.
    injection H as <-. specialize (IH r' eq_refl).
    destruct b; [|done]. cbn [filterM]. by rewrite Hx, bind_Ok, IH.
Qed.

(** X16: every entity is judged on its own: the search over a
    concatenation of two entity lists is the concatenation of the two
    searches, and searching the result of a search again returns it
    unchanged. *)
Theorem search_entity_by_entity (env : Env) (depth : nat)
    (parser : list (list (string * list (gmap string value))))
    (es1 es2 r1 r2 : list Entity) :
  search env depth es1 parser = Ok r1 →
  search env depth es2 parser = Ok r2 →
  search env depth (es1 ++ es2) parser = Ok (r1 ++ r2)
  ∧ search env depth r1 parser = Ok r1.
Proof.
  unfold search. intros H1 H2.
  destruct (mapM (get_search_parameter env depth) parser) as [ps|e]; [|done].
  rewrite bind_Ok in *. split.
  - by apply filterM_app.
  - by eapply filterM_again.
Qed.

Lemma search_entity_by_entity_witness :
  search empty_env 0 [entity_A; entity_B] [by_name_alpha; by_id_2]
  = Ok [entity_A; entity_B]
  ∧ search empty_env 0 [entity_C; entity_A] [by_name_alpha; by_id_2]
    = Ok [entity_A]
  ∧ search empty_env 0 ([entity_A; entity_B] ++ [entity_C; entity_A])
      [by_name_alpha; by_id_2] = Ok ([entity_A; entity_B] ++ [entity_A])
  ∧ search empty_env 0 [entity_A; entity_B] [by_name_alpha; by_id_2]
    = Ok [entity_A; entity_B].
Proof.
  assert (search empty_env 0 [entity_A; entity_B] [by_name_alpha; by_id_2]
          = Ok [entity_A; entity_B]) as H1 by (vm_compute; reflexivity).
  assert (search empty_env 0 [entity_C; entity_A] [by_name_alpha; by_id_2]
          = Ok [entity_A]) as H2 by (vm_compute; reflexivity).
  split; [exact H1|]. split; [exact H2|].
  exact (search_entity_by_entity empty_env 0 [by_name_alpha; by_id_2]
           [entity_A; entity_B] [entity_C; entity_A] [entity_A; entity_B]
           [entity_A] H1 H2).
Defined.

(** ** [valueTypeID] from the raw criterion to the match *)

Lemma existsb_eqb_elem (x : Z) (l : list Z) :
  existsb (fun y => y =? x) l = bool_decide (x ∈ l).
Proof.
  induction l as [|y l IH].
  - symmetry. apply bool_decide_eq_false. by intros ?%elem_of_nil.
  - cbn [existsb]. rewrite IH. destruct (Z.eqb_spec y x) as [->|Hne]; simpl.
    + symmetry. apply bool_decide_eq_true. apply list_elem_of_here.
    + apply bool_decide_ext. rewrite elem_of_cons.
      split; [by right | intros [? | ?]; [congruence | done]].
Qed.

Lemma forallb_eqb_Forall (x : Z) (l : list Z) :
  forallb (fun y => y =? x) l = bool_decide (Forall (fun y => y = x) l).
Proof.
  induction l as [|y l IH].
  - symmetry. by apply bool_decide_eq_true.
  - cbn [forallb]. rewrite IH. destruct (Z.eqb_spec y x) as [->|Hne]; simpl.
    + apply bool_decide_ext. rewrite Forall_cons.
      split; [done | by intros [_ ?]].
    + symmetry. apply bool_decide_eq_false. by intros [? _]%Forall_cons.
Qed.

Lemma existsb_member_singleton (x : Z) (ids : list Z) :
  existsb (member_of [VInt x]) (VInt <$> ids)
  = existsb (fun y => y =? x) ids.
Proof.
  induction ids as [|y ids IH]; [done|].
  rewrite fmap_cons. cbn [existsb]. rewrite IH. unfold member_of at 1.
  cbn [existsb]. by rewrite py_eqb_ints, orb_false_r.
Qed.

Lemma forallb_member_singleton (x : Z) (ids : list Z) :
  forallb (member_of [VInt x]) (VInt <$> ids)
  = forallb (fun y => y =? x) ids.
Proof.
  induction ids as [|y ids IH]; [done|].
  rewrite fmap_cons. cbn [forallb]. rewrite IH. unfold member_of at 1.
  cbn [existsb]. by rewrite py_eqb_ints, orb_false_r.
Qed.

(** X12: a [valueTypeID] criterion with one pair whose links can all be
    evaluated resolves to the domain ids of the matching links, without
    duplicates, under operator ['equal'] and the combinator of the raw
    criterion.  With ['or'] an entity matches iff its id is among those
    domain ids; with ['and'] it matches iff every one of them is its id,
    so when no link matches, every entity does. *)
Theorem value_type_criterion_end_to_end (env : Env) (depth : nat)
    (i : gmap string value) (op lo t bound : value) (rest : list value) :
  i !! "values" = Some (VList [VList (t :: bound :: rest)]) →
  i !! "operator" = Some op →
  i !! "logicalOperator" = Some lo →
  forallb (fun l => is_ok (link_value_matches env op lo bound l))
    (get_links env t) = true →
  ∃ ids : list Z,
    get_search_parameter env depth [("valueTypeID", [i])]
    = Ok (resolved (VInt <$> ids) lo (VStr "equal") "valueTypeID" false)
    ∧ NoDup ids
    ∧ (∀ x, x ∈ ids ↔ x ∈ matching_domains env op lo t bound)
    ∧ (lo = VStr "or" → ∀ entity,
         search_result env entity
           (resolved (VInt <$> ids) lo (VStr "equal") "valueTypeID" false)
         = Ok (bool_decide
                 (entity_id entity ∈ matching_domains env op lo t bound)))
    ∧ (lo = VStr "and" → ∀ entity,
         search_result env entity
           (resolved (VInt <$> ids) lo (VStr "equal") "valueTypeID" false)
         = Ok (bool_decide
                 (Forall (fun x => x = entity_id entity)
                    (matching_domains env op lo t bound)))).
Proof.
  intros Hvalues Hop Hlo Hok.
  exists (flatten_list_and_remove_duplicates
            [matching_domains env op lo t bound]).
  assert (∀ x, x ∈ flatten_list_and_remove_duplicates
                     [matching_domains env op lo t bound]
               ↔ x ∈ matching_domains env op lo t bound) as Hids.
  { intros x. rewrite elem_of_flatten. split.
    - by intros (l & ->%list_elem_of_singleton & Hx).
    - intros Hx. eexists. split; [apply list_elem_of_here | done]. }
  split; [|split; [apply NoDup_flatten | split; [exact Hids|]]].
  - rewrite get_search_parameter_single. unfold resolve.
    rewrite (get_search_values_valueTypeID _ _ _ _ Hvalues).
    cbn [fmap list_fmap lower_if_str mapM].
    rewrite (search_for_value_filterM env i op lo Hop Hlo).
    rewrite (filterM_pure _ _ Hok), !bind_Ok.
    unfold mret, result_ret. rewrite ?bind_Ok.
    unfold resolved. by rewrite Hlo.
  - split; intros -> entity; rewrite search_result_of_resolved;
      unfold search_entity, value_to_be_searched;
      cbn [existsb str_is py_eqb String.eqb Ascii.eqb Bool.eqb orb truthy negb
           andb by_logical_operator first_return default];
      unfold id.
    + rewrite py_any_member, existsb_member_singleton, existsb_eqb_elem.
      f_equal. apply bool_decide_ext, Hids.
    + rewrite py_all_member, forallb_member_singleton, forallb_eqb_Forall.
      f_equal. apply bool_decide_ext. rewrite !Forall_forall.
      split; intros H x Hx; apply H; by apply Hids.
Qed.

Lemma value_type_criterion_end_to_end_witness :
  let env := value_env measured_links in
  let op := VStr "greaterThanEqual" in
  let lo := VStr "or" in
  at_least !! "values" = Some (VList [VList (VInt 5 :: VInt 40 :: [])])
  ∧ at_least !! "operator" = Some op
  ∧ at_least !! "logicalOperator" = Some lo
  ∧ forallb (fun l => is_ok (link_value_matches env op lo (VInt 40) l))
      (get_links env (VInt 5)) = true
  ∧ ∃ ids : list Z,
      get_search_parameter env 0 [("valueTypeID", [at_least])]
      = Ok (resolved (VInt <$> ids) lo (VStr "equal") "valueTypeID" false)
      ∧ NoDup ids
      ∧ (∀ x, x ∈ ids ↔ x ∈ matching_domains env op lo (VInt 5) (VInt 40))
      ∧ (lo = VStr "or" → ∀ entity,
           search_result env entity
             (resolved (VInt <$> ids) lo (VStr "equal") "valueTypeID" false)
           = Ok (bool_decide
                   (entity_id entity
                    ∈ matching_domains env op lo (VInt 5) (VInt 40))))
      ∧ (lo = VStr "and" → ∀ entity,
           search_result env entity
             (resolved (VInt <$> ids) lo (VStr "equal") "valueTypeID" false)
           = Ok (bool_decide
                   (Forall (fun x => x = entity_id entity)
                      (matching_domains env op lo (VInt 5) (VInt 40))))).
Proof.
  intros env op lo.
  assert (at_least !! "values"
          = Some (VList [VList (VInt 5 :: VInt 40 :: [])])) as Hvalues
    by (vm_compute; reflexivity).
  assert (at_least !! "operator" = Some op) as Hop
    by (vm_compute; reflexivity).
  assert (at_least !! "logicalOperator" = Some lo) as Hlo
    by (vm_compute; reflexivity).
  assert (forallb (fun l => is_ok (link_value_matches env op lo (VInt 40) l))
            (get_links env (VInt 5)) = true) as Hok
    by (vm_compute; reflexivity).
  split; [exact Hvalues|]. split; [exact Hop|]. split; [exact Hlo|].
  split; [exact Hok|].
  exact (value_type_criterion_end_to_end env 0 at_least op lo (VInt 5)
           (VInt 40) [] Hvalues Hop Hlo Hok).
Defined.

(** No link reaches 100: under ['and'] the empty list of domain ids is
    matched by every entity. *)
Example value_type_and_without_match :
  search (value_env measured_links) 0 [entity_A; entity_B]
    [[("valueTypeID",
       [ {[ "operator" := VStr "greaterThanEqual";
            "logicalOperator" := VStr "and";
            "values" := VList [VList [VInt 5; VInt 100]] ]} ])]]
  = Ok [entity_A; entity_B].
Proof. vm_compute. reflexivity. Qed.

(** X13: with an operator other than [equal] and [notEqual] the value of a
    link is handed to the evaluator as a bare float, and a zero is no value
    to its guard: links whose description reads as zero are never
    collected, whatever the bound and the operator are, and nothing is
    raised. *)
Theorem zero_valued_links_never_match (env : Env)
    (parameter : gmap string value) (op lo t bound : value)
    (rest : list value) :
  parameter !! "operator" = Some op →
  parameter !! "logicalOperator" = Some lo →
  existsb (py_eqb op) [VStr "equal"; VStr "notEqual"] = false →
  Forall (fun l => ∃ d f, link_description l = Some d ∧ d ≠ EmptyString
                          ∧ py_float env d = Some f
                          ∧ float_is_zero f = true)
    (get_links env t) →
  search_for_value env (VList (t :: bound :: rest)) parameter = Ok [].
Proof.
  intros Hop Hlo Hscalar Hzero.
  rewrite (search_for_value_filterM env parameter op lo Hop Hlo).
  rewrite (filterM_decided _ (fun _ => false)).
  - rewrite bind_Ok. f_equal.
    induction (get_links env t) as [|l ls IH]; [done|]. apply IH.
    by apply Forall_cons in Hzero as [_ ?].
  - intros l Hl. rewrite Forall_forall in Hzero.
    destruct (Hzero l Hl) as (d & f & Hd & Hne & Hf & Hf0).
    unfold link_value_matches.
    rewrite Hd, (truthy_VStr _ Hne), Hf, bind_Ok, Hscalar.
    unfold search_entity. cbn [truthy]. rewrite Hf0.
    cbn [negb andb]. by rewrite orb_true_r.
Qed.

Lemma zero_valued_links_never_match_witness :
  let env := value_env zero_links in
  above_minus_one !! "operator" = Some (VStr "greaterThan")
  ∧ above_minus_one !! "logicalOperator" = Some (VStr "or")
  ∧ existsb (py_eqb (VStr "greaterThan")) [VStr "equal"; VStr "notEqual"]
    = false
  ∧ Forall (fun l => ∃ d f, link_description l = Some d ∧ d ≠ EmptyString
                            ∧ py_float env d = Some f
                            ∧ float_is_zero f = true)
      (get_links env (VInt 5))
  ∧ search_for_value env (VList (VInt 5 :: VInt (-1) :: [])) above_minus_one
    = Ok [].
Proof.
  intros env.
  assert (above_minus_one !! "operator" = Some (VStr "greaterThan")) as Hop
    by (vm_compute; reflexivity).
  assert (above_minus_one !! "logicalOperator" = Some (VStr "or")) as Hlo
    by (vm_compute; reflexivity).
  assert (Forall (fun l => ∃ d f, link_description l = Some d
                                  ∧ d ≠ EmptyString
                                  ∧ py_float env d = Some f
                                  ∧ float_is_zero f = true)
            (get_links env (VInt 5))) as Hzero.
  { repeat constructor.
    - exists "0", (FFin 0). repeat split; (discriminate || reflexivity).
    - exists "0.0", (FFin (0 # 10)).
      repeat split; (discriminate || reflexivity). }
  split; [exact Hop|]. split; [exact Hlo|]. split; [reflexivity|].
  split; [exact Hzero|].
  exact (zero_valued_links_never_match env above_minus_one
           (VStr "greaterThan") (VStr "or") (VInt 5) (VInt (-1)) []
           Hop Hlo eq_refl Hzero).
Defined.

(** The same bound finds a link with a positive value. *)
Example positive_value_above_minus_one :
  search_for_value (value_env measured_links) (VList [VInt 5; VInt (-1)])
    above_minus_one = Ok [7; 10].
Proof. vm_compute. reflexivity. Qed.

(** ** [get_sub_ids] and its accumulator *)

Lemma visit_subs_Raise (env : Env) (depth : nat) (e : exn) (cs : list Z) :
  visit_subs env depth (Raise e) cs = Raise e.
Proof. induction cs as [|c cs IH]; [done|]. apply IH. Qed.

Lemma visit_subs_cons (env : Env) (depth : nat) (acc : list Z) (c : Z)
    (cs : list Z) :
  visit_subs env depth (Ok acc) (c :: cs)
  = visit_subs env depth (get_sub_ids env depth (VInt c) acc) cs.
Proof. reflexivity. Qed.

Lemma get_sub_ids_unfold (env : Env) (depth : nat) (id_ : value)
    (subs : list Z) :
  get_sub_ids env (S depth) id_ subs
  = t ← g_types_get env id_;
    visit_subs env depth (Ok (subs ++ get_all_sub_ids t)) (get_all_sub_ids t).
Proof. reflexivity. Qed.

Lemma visit_subs_appends (env : Env) (depth : nat) :
  (∀ id_ subs, get_sub_ids env depth id_ subs
               = get_sub_ids env depth id_ [] ≫= fun ds => Ok (subs ++ ds)) →
  ∀ cs acc, visit_subs env depth (Ok acc) cs
            = visit_subs env depth (Ok []) cs ≫= fun ds => Ok (acc ++ ds).
Proof.
  intros IH cs. induction cs as [|c cs IHcs]; intros acc.
  - cbn [visit_subs foldl]. by rewrite bind_Ok, app_nil_r.
  - rewrite !visit_subs_cons, (IH (VInt c) acc).
    destruct (get_sub_ids env depth (VInt c) []) as [ds1|e].
    + rewrite bind_Ok, (IHcs (acc ++ ds1)), (IHcs ds1).
      destruct (visit_subs env depth (Ok []) cs) as [ds2|e]; [|done].
      rewrite !bind_Ok. by rewrite (assoc_L (++)).
    + by rewrite bind_Raise, !visit_subs_Raise.
Qed.

(** X15: [get_sub_ids] only appends to the list it is handed, and what it
    appends does not depend on that list: a call with accumulator [subs]
    is the call with the empty accumulator, put behind [subs]; it fails
    exactly when that call fails, with the same exception. *)
Theorem get_sub_ids_appends (env : Env) (depth : nat) (id_ : value)
    (subs : list Z) :
  get_sub_ids env depth id_ subs
  = get_sub_ids env depth id_ [] ≫= fun ds => Ok (subs ++ ds).
Proof.
  revert id_ subs. induction depth as [|depth IH]; intros id_ subs; [done|].
  rewrite !get_sub_ids_unfold.
  destruct (g_types_get env id_) as [t|e]; [|done]. rewrite !bind_Ok.
  rewrite (visit_subs_appends env depth IH _ (subs ++ get_all_sub_ids t)).
  rewrite (visit_subs_appends env depth IH _ ([] ++ get_all_sub_ids t)).
  destruct (visit_subs env depth (Ok []) (get_all_sub_ids t)) as [ds|e];
    [|done].
  rewrite !bind_Ok. by rewrite (assoc_L (++)).
Qed.

Lemma descendant_on_loop (types : gmap Z Type_) (x : Z) :
  descendant types x x →
  ∃ c, sub_type types x c ∧ descendant types c c.
Proof.
  intros (c & Hc & [-> | Hcx])%descendant_inv.
  - exists x. split; [done|]. by apply tc_once.
  - exists c. split; [done|]. by eapply tc_r.
Qed.

Lemma visit_subs_fails (env : Env) (depth : nat) (c : Z) (cs : list Z)
    (acc : result (list Z)) :
  c ∈ cs →
  (∀ subs, is_ok (get_sub_ids env depth (VInt c) subs) = false) →
  is_ok (visit_subs env depth acc cs) = false.
Proof.
  intros Hc Hfail. revert acc.
  induction cs as [|c' cs IH]; intros acc; [by apply elem_of_nil in Hc|].
  destruct acc as [subs|e]; [|by rewrite visit_subs_Raise].
  rewrite visit_subs_cons.
  apply elem_of_cons in Hc as [<- | Hc].
  - specialize (Hfail subs).
    destruct (get_sub_ids env depth (VInt c) subs); [done|].
    by rewrite visit_subs_Raise.
  - by apply IH.
Qed.

(** X14: if a type is among its own descendants, [get_sub_ids] on it never
    returns a list: whatever the depth allowed, the call ends in an
    exception. *)
Theorem get_sub_ids_fails_on_loops (env : Env) (depth : nat) (x : Z)
    (subs : list Z) :
  descendant (g_types env) x x →
  is_ok (get_sub_ids env depth (VInt x) subs) = false.
Proof.
  revert x subs. induction depth as [|depth IH]; intros x subs Hloop; [done|].
  destruct (descendant_on_loop _ _ Hloop) as (c & (t & Ht & Hc) & Hcc).
  rewrite (get_sub_ids_S env depth x t subs Ht).
  apply (visit_subs_fails env depth c); [done|].
  intros subs'. by apply IH.
Qed.

Lemma get_sub_ids_fails_on_loops_witness :
  descendant (g_types loop_env) 1 1
  ∧ is_ok (get_sub_ids loop_env 1000 (VInt 1) []) = false.
Proof.
  assert (descendant (g_types loop_env) 1 1) as Hloop.
  { apply (tc_l _ 1 2 1); [|apply tc_once].
    - exists (node 1 [2]). split; [vm_compute; reflexivity|].
      apply list_elem_of_here.
    - exists (node 2 [1]). split; [vm_compute; reflexivity|].
      apply list_elem_of_here. }
  split; [exact Hloop|].
  exact (get_sub_ids_fails_on_loops loop_env 1000 1 [] Hloop).
Defined.

Example loop_is_recursion_error :
  get_sub_ids loop_env 50 (VInt 1) [] = Raise RecursionError.
Proof. vm_compute. reflexivity. Qed.

(** ** [typeIDWithSubs] from the raw criterion to the match *)

Lemma get_search_values_with_subs (env : Env) (depth : nat)
    (i : gmap string value) (ids : list Z) (dss : list (list Z)) :
  i !! "values" = Some (VList (VInt <$> ids)) →
  mapM (fun value => get_sub_ids env depth value []) (VInt <$> ids) = Ok dss →
  get_search_values env depth "typeIDWithSubs" i
  = Ok (VInt <$> (ids ++ flatten_list_and_remove_duplicates dss)).
Proof.
  intros Hvalues Hruns. unfold get_search_values, dict_get.
  rewrite Hvalues, bind_Ok. cbn [py_iter]. rewrite bind_Ok.
  rewrite lower_if_str_ints.
  change (String.eqb "typeIDWithSubs" "typeIDWithSubs") with true.
  change (String.eqb "typeIDWithSubs" "relationToID") with false.
  change (String.eqb "typeIDWithSubs" "valueTypeID") with false.
  cbv iota. rewrite Hruns, !bind_Ok. by rewrite fmap_app.
Qed.

Lemma existsb_member_ints (tids all : list Z) :
  existsb (member_of (VInt <$> tids)) (VInt <$> all) = true
  ↔ ∃ y, y ∈ all ∧ y ∈ tids.
Proof.
  rewrite existsb_exists. split.
  - intros (v & Hv & Hin). apply list_elem_of_In in Hv.
    apply list_elem_of_fmap in Hv as (y & -> & Hy). exists y. split; [done|].
    unfold member_of in Hin. apply existsb_exists in Hin as (w & Hw & Heq).
    apply list_elem_of_In, list_elem_of_fmap in Hw as (z & -> & Hz).
    rewrite py_eqb_ints in Heq. by apply Z.eqb_eq in Heq as ->.
  - intros (y & Hy & Hty). exists (VInt y). split.
    + apply list_elem_of_In, list_elem_of_fmap. by exists y.
    + unfold member_of. apply existsb_exists. exists (VInt y). split.
      * apply list_elem_of_In, list_elem_of_fmap. by exists y.
      * rewrite py_eqb_ints. apply Z.eqb_refl.
Qed.

Lemma value_to_be_searched_types (env : Env) (entity : Entity) :
  value_to_be_searched env entity (VStr "typeIDWithSubs")
  = VList (VInt <$> (type_id <$> entity_types entity)).
Proof. rewrite <- list_fmap_compose. reflexivity. Qed.

(** X18: over a type table that is a forest, a [typeIDWithSubs] criterion
    with operator [equal] and the default combinator matches exactly the
    entities that carry one of the given types or a type below one of
    them. *)
Theorem type_with_subs_matches_descendants (env : Env) (rank : Z → nat)
    (depth : nat) (i : gmap string value) (ids : list Z) :
  (∀ x y, sub_type (g_types env) x y →
          is_Some (g_types env !! y) ∧ (rank y < rank x)%nat) →
  i !! "values" = Some (VList (VInt <$> ids)) →
  (∀ x, x ∈ ids → is_Some (g_types env !! x) ∧ (rank x < depth)%nat) →
  i !! "operator" = Some (VStr "equal") →
  i !! "logicalOperator" = None →
  ∃ p, get_search_parameter env depth [("typeIDWithSubs", [i])] = Ok p
       ∧ ∀ entity, ∃ b : bool,
           search_result env entity p = Ok b
           ∧ (b = true ↔
              ∃ node, node ∈ entity_types entity
                      ∧ (type_id node ∈ ids
                         ∨ ∃ x, x ∈ ids
                                ∧ descendant (g_types env) x (type_id node))).
Proof.
  intros Hforest Hvalues Hids Hop Hlo.
  destruct (mapM_get_sub_ids env rank Hforest depth ids Hids)
    as (dss & Hruns & Hdss).
  eexists. split.
  - rewrite get_search_parameter_single. unfold resolve.
    rewrite (get_search_values_with_subs env depth i ids dss Hvalues Hruns).
    unfold dict_get. rewrite Hop, Hlo. reflexivity.
  - intros entity.
    change (list_to_map _) with
      (resolved (VInt <$> ids ++ flatten_list_and_remove_duplicates dss)
         (VStr "or") (VStr "equal") "typeIDWithSubs" false).
    rewrite search_result_of_resolved, value_to_be_searched_types.
    unfold search_entity.
    cbn [existsb str_is py_eqb String.eqb Ascii.eqb Bool.eqb orb
         by_logical_operator first_return default].
    rewrite andb_false_r. unfold id.
    rewrite py_any_member. eexists. split; [reflexivity|].
    rewrite existsb_member_ints. split.
    + intros (y & Hy & (node & -> & Hnode)%list_elem_of_fmap).
      exists node. split; [done|].
      apply elem_of_app in Hy as [Hy | Hy]; [by left|]. right.
      apply elem_of_flatten in Hy. by apply Hdss.
    + intros (node & Hnode & Hy). exists (type_id node). split.
      * apply elem_of_app. destruct Hy as [Hy | Hy]; [by left|]. right.
        apply elem_of_flatten. by apply Hdss.
      * apply list_elem_of_fmap. by exists node.
Qed.

Lemma type_with_subs_matches_descendants_witness :
  (∀ x y, sub_type (g_types tree_env) x y →
          is_Some (g_types tree_env !! y) ∧ (tree_rank y < tree_rank x)%nat)
  ∧ with_subs [2] !! "values" = Some (VList (VInt <$> [2]))
  ∧ (∀ x, x ∈ [2] →
          is_Some (g_types tree_env !! x) ∧ (tree_rank x < 3)%nat)
  ∧ with_subs [2] !! "operator" = Some (VStr "equal")
  ∧ with_subs [2] !! "logicalOperator" = None
  ∧ ∃ p, get_search_parameter tree_env 3 [("typeIDWithSubs", [with_subs [2]])]
         = Ok p
         ∧ ∀ entity, ∃ b : bool,
             search_result tree_env entity p = Ok b
             ∧ (b = true ↔
                ∃ node, node ∈ entity_types entity
                        ∧ (type_id node ∈ [2]
                           ∨ ∃ x, x ∈ [2]
                                  ∧ descendant (g_types tree_env) x
                                      (type_id node))).
Proof.
  assert (with_subs [2] !! "values" = Some (VList (VInt <$> [2]))) as Hvalues
    by (vm_compute; reflexivity).
  assert (∀ x, x ∈ [2] →
               is_Some (g_types tree_env !! x) ∧ (tree_rank x < 3)%nat) as Hids.
  { intros x ->%list_elem_of_singleton.
    split; [by eexists; vm_compute | vm_compute; lia]. }
  assert (with_subs [2] !! "operator" = Some (VStr "equal")) as Hop
    by (vm_compute; reflexivity).
  assert (with_subs [2] !! "logicalOperator" = None) as Hlo
    by (vm_compute; reflexivity).
  split; [exact tree_env_forest|]. split; [exact Hvalues|].
  split; [exact Hids|]. split; [exact Hop|]. split; [exact Hlo|].
  exact (type_with_subs_matches_descendants tree_env tree_rank 3
           (with_subs [2]) [2] tree_env_forest Hvalues Hids Hop Hlo).
Defined.

(** An entity of type 4 is found under type 2 and under the root, an
    entity of type 3 only under the root. *)
Example sub_type_entities_found :
  search tree_env 3 [typed_entity 10 [node 4 []]; typed_entity 11 [node 3 []]]
    [[("typeIDWithSubs", [with_subs [2]])]]
  = Ok [typed_entity 10 [node 4 []]]
  ∧ search tree_env 3
      [typed_entity 10 [node 4 []]; typed_entity 11 [node 3 []]]
      [[("typeIDWithSubs", [with_subs [1]])]]
    = Ok [typed_entity 10 [node 4 []]; typed_entity 11 [node 3 []]].
Proof. split; vm_compute; reflexivity. Qed.

(** ** Entities without a description *)

(** X17: an entity without a description, or with an empty one, yields no
    value for [entityDescription]: a [like] criterion never matches it,
    whatever the search values and the combinator are, an [equal]
    criterion with [or] never matches it, and a [notEqual] criterion with
    [or] always does. *)
Theorem no_description_no_value (env : Env) (entity : Entity)
    (svs : list value)
    (lo : value) :
  entity_description entity = None
  ∨ entity_description entity = Some EmptyString →
  value_to_be_searched env entity (VStr "entityDescription") = VList []
  ∧ search_result env entity
      (resolved svs lo (VStr "like") "entityDescription" false) = Ok false
  ∧ search_result env entity
      (resolved svs (VStr "or") (VStr "equal") "entityDescription" false)
    = Ok false
  ∧ search_result env entity
      (resolved svs (VStr "or") (VStr "notEqual") "entityDescription" false)
    = Ok true.
Proof.
  intros Hd.
  assert (value_to_be_searched env entity (VStr "entityDescription") = VList [])
    as Hnone.
  { unfold value_to_be_searched.
    cbn [existsb str_is py_eqb String.eqb Ascii.eqb Bool.eqb orb].
    by destruct Hd as [-> | ->]. }
  split; [exact Hnone|].
  rewrite !search_result_of_resolved, Hnone.
  split; [done|].
  split; unfold search_entity;
    cbn [truthy negb andb orb str_is py_eqb String.eqb Ascii.eqb Bool.eqb
         by_logical_operator first_return default];
    unfold id, py_not; by rewrite py_any_member, nothing_in_empty.
Qed.

Lemma no_description_no_value_witness :
  (entity_description entity_A = None
   ∨ entity_description entity_A = Some EmptyString)
  ∧ value_to_be_searched empty_env entity_A (VStr "entityDescription") = VList []
  ∧ search_result empty_env entity_A
      (resolved [VStr "roman"] (VStr "and") (VStr "like") "entityDescription"
         false) = Ok false
  ∧ search_result empty_env entity_A
      (resolved [VStr "roman"] (VStr "or") (VStr "equal") "entityDescription"
         false) = Ok false
  ∧ search_result empty_env entity_A
      (resolved [VStr "roman"] (VStr "or") (VStr "notEqual")
         "entityDescription" false) = Ok true.
Proof.
  split; [left; reflexivity|].
  apply (no_description_no_value empty_env entity_A [VStr "roman"]
           (VStr "and")).
  left; reflexivity.
Defined.

(** ** [relationToID] from the raw criterion to the match *)

(** X20: a search with one [relationToID] criterion, operator [equal] and
    the default combinator returns, in order, exactly the entities whose
    id is linked to one of the given values. *)
Theorem relation_search_selects_linked (env : Env) (depth : nat)
    (i : gmap string value) (items : list value) (entities : list Entity) :
  i !! "values" = Some (VList items) →
  i !! "operator" = Some (VStr "equal") →
  i !! "logicalOperator" = None →
  search env depth entities [[("relationToID", [i])]]
  = Ok (List.filter
          (fun e => bool_decide (entity_id e ∈ linked_ids env items))
          entities).
Proof.
  intros Hvalues Hop Hlo.
  eapply search_one_criterion.
  - rewrite get_search_parameter_single. unfold resolve, get_search_values.
    unfold dict_get. rewrite Hvalues, Hop, Hlo. reflexivity.
  - intros e _.
    change (list_to_map _) with
      (resolved
         (VInt <$> flatten_list_and_remove_duplicates
                     (get_linked_entities_id_api env <$> (lower_if_str env <$> items)))
         (VStr "or") (VStr "equal") "relationToID" false).
    rewrite search_result_of_resolved.
    unfold search_entity, value_to_be_searched.
    cbn [existsb str_is py_eqb String.eqb Ascii.eqb Bool.eqb orb truthy negb
         andb by_logical_operator first_return default].
    unfold id.
    rewrite py_any_member, existsb_member_singleton, existsb_eqb_elem.
    f_equal. apply bool_decide_ext.
    unfold flatten_list_and_remove_duplicates, linked_ids.
    apply elem_of_remove_dups.
Qed.

Lemma relation_search_selects_linked_witness :
  equal_1 !! "values" = Some (VList [VInt 1])
  ∧ equal_1 !! "operator" = Some (VStr "equal")
  ∧ equal_1 !! "logicalOperator" = None
  ∧ search one_link_env 0 [entity_A; entity_B; entity_C]
      [[("relationToID", [equal_1])]]
    = Ok (List.filter
            (fun e => bool_decide
                        (entity_id e ∈ linked_ids one_link_env [VInt 1]))
            [entity_A; entity_B; entity_C]).
Proof.
  split; [vm_compute; reflexivity|]. split; [vm_compute; reflexivity|].
  split; [vm_compute; reflexivity|].
  apply (relation_search_selects_linked one_link_env 0 equal_1 [VInt 1]
           [entity_A; entity_B; entity_C]); vm_compute; reflexivity.
Defined.

Example linked_entity_found :
  search one_link_env 0 [entity_A; entity_B; entity_C]
    [[("relationToID", [equal_1])]] = Ok [entity_B].
Proof. vm_compute. reflexivity. Qed.

(** ** Aliases *)

Lemma existsb_fmap {A B} (f : A → B) (g : B → bool) (l : list A) :
  existsb g (f <$> l) = existsb (fun x => g (f x)) l.
Proof. induction l as [|x l IH]; [done|]. simpl. by rewrite <- IH. Qed.

Lemma existsb_pointwise {A} (f g : A → bool) (l : list A) :
  (∀ x, f x = g x) → existsb f l = existsb g l.
Proof. intros H. induction l as [|x l IH]; [done|]. simpl. by rewrite H, IH. Qed.

(** X19: an [entityAliases] criterion with [like], string values and the
    default combinator passes the search strings and the aliases through
    [str.lower()] and matches an entity iff one of the lowercased search
    strings occurs in one of its lowercased aliases; an entity without
    aliases never matches. *)
Theorem alias_like_ignores_case (env : Env) (depth : nat)
    (i : gmap string value) (vs : list string) :
  i !! "values" = Some (VList (VStr <$> vs)) →
  i !! "operator" = Some (VStr "like") →
  i !! "logicalOperator" = None →
  ∃ p, get_search_parameter env depth [("entityAliases", [i])] = Ok p
       ∧ ∀ entity, ∃ b : bool,
           search_result env entity p = Ok b
           ∧ (b = true ↔
              ∃ v a, v ∈ vs ∧ a ∈ entity_aliases entity
                     ∧ substring_of (py_lower env v) (py_lower env a.2)).
Proof.
  intros Hvalues Hop Hlo. eexists. split.
  - apply resolve_plain; [by apply (bool_decide_unpack _) | done | done].
  - intros entity.
    exists (existsb
              (fun v => existsb (fun a => str_in (py_lower env v)
                                            (py_lower env a.2))
                          (entity_aliases entity))
              vs).
    split.
    + rewrite search_result_of_resolved.
      unfold combinator_of. rewrite Hlo. cbn [default].
      assert (lower_if_str env <$> (VStr <$> vs)
              = VStr <$> (py_lower env <$> vs)) as ->.
      { rewrite <- !list_fmap_compose. by apply list_fmap_ext. }
      assert (value_to_be_searched env entity (VStr "entityAliases")
              = VList (VStr <$> ((fun a => py_lower env a.2)
                                   <$> entity_aliases entity))) as ->.
      { rewrite <- list_fmap_compose. reflexivity. }
      destruct (entity_aliases entity) as [|a aliases] eqn:Haliases.
      * cbn [fmap list_fmap existsb]. unfold search_entity.
        cbn [truthy negb andb orb str_is py_eqb String.eqb Ascii.eqb
             Bool.eqb].
        f_equal. symmetry. clear.
        induction vs as [|v vs IH]; [done|]. exact IH.
      * rewrite search_entity_like_or by (intros H; discriminate H).
        f_equal.
        rewrite existsb_fmap. apply existsb_pointwise. intros v.
        by rewrite existsb_fmap.
    + rewrite existsb_exists. split.
      * intros (v & Hv & (a & Ha & Hin)%existsb_exists).
        exists v, a. rewrite !list_elem_of_In. by rewrite <- str_in_spec.
      * intros (v & a & Hv & Ha & Hsub). exists v.
        split; [by apply list_elem_of_In|].
        apply existsb_exists. exists a.
        split; [by apply list_elem_of_In | by apply str_in_spec].
Qed.

Lemma alias_like_ignores_case_witness :
  let i : gmap string value :=
    {[ "operator" := VStr "like"; "values" := VList (VStr <$> ["TULL"]) ]} in
  let cicero := aliased_entity 1 [(11, "Marcus Tullius"); (12, "Cicero")] in
  i !! "values" = Some (VList (VStr <$> ["TULL"]))
  ∧ i !! "operator" = Some (VStr "like")
  ∧ i !! "logicalOperator" = None
  ∧ ∃ p, get_search_parameter empty_env 0 [("entityAliases", [i])] = Ok p
         ∧ search_result empty_env cicero p = Ok true
         ∧ search_result empty_env (aliased_entity 2 []) p = Ok false.
Proof.
  intros i cicero.
  assert (i !! "values" = Some (VList (VStr <$> ["TULL"]))) as Hvalues
    by (vm_compute; reflexivity).
  assert (i !! "operator" = Some (VStr "like")) as Hop
    by (vm_compute; reflexivity).
  assert (i !! "logicalOperator" = None) as Hlo by (vm_compute; reflexivity).
  split; [exact Hvalues|]. split; [exact Hop|]. split; [exact Hlo|].
  destruct (alias_like_ignores_case empty_env 0 i ["TULL"] Hvalues Hop Hlo)
    as (p & Hp & Hall).
  exists p. split; [exact Hp|]. split.
  - destruct (Hall cicero) as (b & -> & Hb). f_equal. apply Hb.
    exists "TULL", (11, "Marcus Tullius").
    split; [apply list_elem_of_here|]. split; [apply list_elem_of_here|].
    exists "marcus ", "ius". vm_compute. reflexivity.
  - destruct (Hall (aliased_entity 2 [])) as ([] & -> & Hb); [|done].
    destruct (proj1 Hb eq_refl) as (v & a & _ & Ha & _).
    by apply elem_of_nil in Ha.
Defined.

Example alias_found_in_any_case :
  search empty_env 0
    [aliased_entity 1 [(11, "Marcus Tullius"); (12, "Cicero")]; entity_A;
     aliased_entity 2 []]
    [[("entityAliases",
       [ {[ "operator" := VStr "like"; "values" := VList [VStr "TULL"] ]} ])]]
  = Ok [aliased_entity 1 [(11, "Marcus Tullius"); (12, "Cicero")]].
Proof. vm_compute. reflexivity. Qed.
